(** * DiscordBotUtils: permission resolver, error classifier, settings store
      and task scheduler, embedded from the Python sources under [utils/].

    Every Python function is written as a Rocq function of the same name.
    Code that can raise returns an [outcome]; code that logs or talks to the
    chat platform returns a [prog], an outcome together with the events it
    emitted, in order. *)

From Stdlib Require Import ZArith String Ascii List Bool Lia.
From stdpp Require Import base option list gmap strings pretty.

#[local] Set Warnings "-register-all,-clear-no-such-hyp".
Local Open Scope string_scope.
Local Open Scope list_scope.
Local Open Scope Z_scope.

(** ** Python values shared by all modules *)
Module Py.

(** An exception object. [exn_mro] lists the names of its class and of all
    its base classes (the method resolution order), so that [isinstance] is a
    membership test; [exn_args] holds the run-time values it was built from
    (what [str(e)] shows besides the fixed text of the raising site);
    [exn_original] is the [original] attribute that discord.py puts on
    wrapper errors. *)
Inductive exn : Type :=
  Exn (exn_mro : list string) (exn_args : list string) (exn_original : option exn).

Definition exn_mro (e : exn) : list string := let 'Exn m _ _ := e in m.
Definition exn_args (e : exn) : list string := let 'Exn _ a _ := e in a.
Definition exn_original (e : exn) : option exn := let 'Exn _ _ o := e in o.

(** [isinstance(e, (C1, ..., Cn))] *)
Definition isinstance (e : exn) (classes : list string) : bool :=
  existsb (fun c => bool_decide (c ∈ exn_mro e)) classes.

(** [getattr(error, 'original', error)] *)
Definition getattr_original (error : exn) : exn :=
  match exn_original error with
  | Some o => o
  | None => error
  end.

Definition Exception : string := "Exception".
Definition builtin (name : string) (args : list string) : exn :=
  Exn [name; Exception; "BaseException"] args None.
Definition ValueError := builtin "ValueError".
Definition TypeError := builtin "TypeError".
Definition AttributeError := builtin "AttributeError".
(** [KeyboardInterrupt] derives from [BaseException] only. *)
Definition KeyboardInterrupt : exn := Exn ["KeyboardInterrupt"; "BaseException"] [] None.

Inductive outcome (A : Type) : Type :=
| Return (a : A)
| Raise (e : exn).
Arguments Return {A} a.
Arguments Raise {A} e.

(** A computation that emits events of type [E] while it runs. *)
Definition prog (E A : Type) : Type := (outcome A * list E)%type.

Definition ret {E A} (a : A) : prog E A := (Return a, []).
Definition raise {E A} (e : exn) : prog E A := (Raise e, []).
Definition emit {E} (ev : E) : prog E unit := (Return tt, [ev]).
Definition lift {E A} (o : outcome A) : prog E A := (o, []).

Definition bind {E A B} (p : prog E A) (k : A -> prog E B) : prog E B :=
  match p with
  | (Return a, t) => let '(r, t') := k a in (r, t ++ t')
  | (Raise e, t) => (Raise e, t)
  end.

(** [try: p  except (classes) as e: handler e] *)
Definition try_except {E A} (p : prog E A) (classes : list string)
    (handler : exn -> prog E A) : prog E A :=
  match p with
  | (Raise e, t) =>
      if isinstance e classes then let '(r, t') := handler e in (r, t ++ t')
      else (Raise e, t)
  | done => done
  end.

(** [try: p  except C1 as e: h1 e  except C2 as e: h2 e ...]: the first clause
    whose classes match handles the exception; what a handler raises is not
    offered to the clauses after it. *)
Fixpoint select_clause {E A} (clauses : list (list string * (exn -> prog E A))) (e : exn)
    : option (exn -> prog E A) :=
  match clauses with
  | [] => None
  | (classes, handler) :: rest =>
      if isinstance e classes then Some handler else select_clause rest e
  end.

Definition try_except_clauses {E A} (p : prog E A)
    (clauses : list (list string * (exn -> prog E A))) : prog E A :=
  match p with
  | (Raise e, t) =>
      match select_clause clauses e with
      | Some handler => let '(r, t') := handler e in (r, t ++ t')
      | None => (Raise e, t)
      end
  | done => done
  end.

Definition result {E A} (p : prog E A) : outcome A := fst p.
Definition trace {E A} (p : prog E A) : list E := snd p.

(** *** Strings

    A [string] stands for a Python [str] whose characters are the code points
    below 256; on that range the Unicode classes used by [str.strip],
    [str.isdigit], [str.lower] and [int] are written out in full. *)

Definition code (c : ascii) : N := N_of_ascii c.

Definition between (lo hi n : N) : bool := ((lo <=? n) && (n <=? hi))%N.

(** White space: TAB..CR, FS..US, space, NEL, NBSP. *)
Definition isspace_char (c : ascii) : bool :=
  let n := code c in
  (between 9 13 n || between 28 32 n || (n =? 133) || (n =? 160))%N.

(** Decimal digits (general category Nd): "0".."9". *)
Definition isdecimal_char (c : ascii) : bool := between 48 57 (code c).

(** Digits for [str.isdigit]: the decimals and the superscripts two, three
    and one (U+00B2, U+00B3, U+00B9). *)
Definition isdigit_char (c : ascii) : bool :=
  let n := code c in
  (isdecimal_char c || (n =? 178) || (n =? 179) || (n =? 185))%N.

Definition lower_char (c : ascii) : ascii :=
  let n := code c in
  if (between 65 90 n || (between 192 222 n && negb (n =? 215)))%N
  then ascii_of_N (n + 32) else c.

Fixpoint lower (s : string) : string :=
  match s with
  | EmptyString => EmptyString
  | String c s' => String (lower_char c) (lower s')
  end.

Fixpoint lstrip (s : string) : string :=
  match s with
  | String c s' => if isspace_char c then lstrip s' else s
  | EmptyString => EmptyString
  end.

Definition reverse (s : string) : string :=
  string_of_list_ascii (rev (list_ascii_of_string s)).

Definition rstrip (s : string) : string := reverse (lstrip (reverse s)).

(** [s.strip()] *)
Definition strip (s : string) : string := rstrip (lstrip s).

(** [s.split(sep)] for a one-character separator. *)
Fixpoint split (sep : ascii) (s : string) : list string :=
  match s with
  | EmptyString => [EmptyString]
  | String c s' =>
      if Ascii.eqb c sep then EmptyString :: split sep s'
      else match split sep s' with
           | w :: ws => String c w :: ws
           | [] => [String c EmptyString]
           end
  end.

Fixpoint all_chars (p : ascii -> bool) (s : string) : bool :=
  match s with
  | EmptyString => true
  | String c s' => p c && all_chars p s'
  end.

(** Truth value of a string: non-empty. *)
Definition truthy (s : string) : bool :=
  match s with EmptyString => false | _ => true end.

(** [s.isdigit()] *)
Definition isdigit (s : string) : bool := truthy s && all_chars isdigit_char s.

Fixpoint decimal_value (acc : Z) (s : string) : Z :=
  match s with
  | EmptyString => acc
  | String c s' => decimal_value (10 * acc + (Z.of_N (code c) - 48)) s'
  end.

(** [int(s)] on a string without sign, white space or underscore (true of
    every string that passes [isdigit], the only ones the sources convert):
    the decimal digits are read in base ten, and any other character is
    rejected with [ValueError]. The cap that recent interpreters put on the
    number of digits is not modelled. *)
Definition int (s : string) : outcome Z :=
  if truthy s && all_chars isdecimal_char s
  then Return (decimal_value 0 s)
  else Raise (ValueError [s]).

(** [[f(x) for x in l]] where [f] may raise: left to right, the first
    exception ends the comprehension. *)
Fixpoint comprehension {A B} (f : A -> outcome B) (l : list A) : outcome (list B) :=
  match l with
  | [] => Return []
  | x :: l' =>
      match f x with
      | Raise e => Raise e
      | Return y =>
          match comprehension f l' with
          | Raise e => Raise e
          | Return ys => Return (y :: ys)
          end
      end
  end.

End Py.

Notation "'let!' x := p 'in' k" := (Py.bind p (fun x => k))
  (at level 10, x binder, p at level 100, k at level 200).
Notation "'do!' p 'in' k" := (Py.bind p (fun _ => k))
  (at level 10, p at level 100, k at level 200).

(** ** configparser.ConfigParser, as [config_manager.py] loads it *)
Module Config.
Import Py.

(** The parsed file: the options of the [DEFAULT] section and those of every
    other section. Option names are stored in lower case, as the parser's
    [optionxform] leaves them. A value is the string [get] yields for it:
    values that use the parser's [%] interpolation are outside the model. *)
Record ConfigParser := {
  defaults : gmap string string;
  sections : gmap string (gmap string string)
}.

Definition default_section : string := "DEFAULT".

(** [name in config] *)
Definition contains (config : ConfigParser) (name : string) : bool :=
  bool_decide (name = default_section) || bool_decide (is_Some (sections config !! name)).

(** The option as [get] finds it: in the section first, then in [DEFAULT];
    [None] stands for [NoSectionError] and [NoOptionError]. *)
Definition find (config : ConfigParser) (section opt : string) : option string :=
  let in_defaults := defaults config !! lower opt in
  match sections config !! section with
  | Some d => match d !! lower opt with
              | Some v => Some v
              | None => in_defaults
              end
  | None => if bool_decide (section = default_section) then in_defaults else None
  end.

(** [config.get(section, option, fallback=fallback)] *)
Definition get (config : ConfigParser) (section opt fallback : string) : string :=
  default fallback (find config section opt).

(** [RawConfigParser._convert_to_boolean] *)
Definition convert_to_boolean (value : string) : outcome bool :=
  let v := lower value in
  if bool_decide (v ∈ ["1"; "yes"; "true"; "on"]) then Return true
  else if bool_decide (v ∈ ["0"; "no"; "false"; "off"]) then Return false
  else Raise (ValueError [value]).

(** [config.getboolean(section, option, fallback=fallback)] *)
Definition getboolean (config : ConfigParser) (section opt : string)
    (fallback : bool) : outcome bool :=
  match find config section opt with
  | Some v => convert_to_boolean v
  | None => Return fallback
  end.

(** The class every error of the [configparser] module derives from. *)
Definition Error : string := "configparser.Error".

End Config.

(** ** The objects discord.py hands to the bot *)
Module Discord.
Import Py.

Record Role := { name : string }.
Record Guild := { owner_id : option Z }.

(** The author of a command: a [discord.Member] (inside a guild, with roles)
    or a bare [discord.User] (direct message). *)
Inductive caller :=
| Member (id : Z) (roles : list Role) (guild : Guild)
| User (id : Z).

Definition id (c : caller) : Z :=
  match c with Member i _ _ => i | User i => i end.

(** What a function annotated [discord.Member | discord.User] can be handed
    at run time: such a caller, or any other object with an [id] (the test
    doubles at the end of [permission_handler.py] are of this kind). *)
Inductive object :=
| discord (c : caller)
| other (id : Z).

Definition object_id (o : object) : Z :=
  match o with discord c => id c | other i => i end.

(** The first argument of checks and error handlers. The replies a context
    accepts are calls into the platform; each carries what the call does when
    it is made: return, or raise. *)
Inductive ctx_or_interaction :=
| Context (author : caller) (reply : outcome unit)
| Interaction (user : caller) (is_response_sent : outcome bool)
    (followup_send : outcome unit) (response_send_message : outcome unit)
| MockContext (author : string).

Definition CommandNotFound : string := "discord.ext.commands.CommandNotFound".
Definition app_CommandNotFound : string := "discord.app_commands.CommandNotFound".
Definition CheckFailure : string := "discord.ext.commands.CheckFailure".
Definition app_CheckFailure : string := "discord.app_commands.CheckFailure".
Definition MissingRequiredArgument : string := "discord.ext.commands.MissingRequiredArgument".
Definition BadArgument : string := "discord.ext.commands.BadArgument".
Definition RateLimited : string := "discord.errors.RateLimited".
Definition Forbidden : string := "discord.errors.Forbidden".

(** [commands.CheckFailure(message)] *)
Definition new_CheckFailure (args : list string) : exn :=
  Exn [CheckFailure; "discord.ext.commands.CommandError"; "discord.errors.DiscordException";
       Exception; "BaseException"] args None.

End Discord.

(** ** What the bot does to the outside: log records and messages *)
Module Events.
Import Py Discord.

(** The levels of the [logging] module. *)
Inductive level := DEBUG | INFO | WARNING | ERROR | CRITICAL.

(** The fixed texts passed to [bot_logger.log_error]. *)
Inductive error_message :=
| SendForbidden            (* error_handler.py, line 94 *)
| SendFailed               (* error_handler.py, line 96 *)
| ApiForbidden             (* error_handler.py, line 139 *)
| Unexpected.              (* error_handler.py, line 153 *)

(** The text of a log record, named after the call that writes it, with the
    values the source interpolates into it. *)
Inductive log_text :=
| AdminRolesLoaded (names : list string)
| AdminUsersLoaded (ids : list Z)
| PermissionsSectionFailed (e : exn)
| RoleComparisonFailed (e : exn)
| NoFeatureSection (feature_name : string)
| NotifyFlagUnreadable (e : exn)
| UsageError (author : caller + string) (e : exn)
| RateLimitReached (e : exn)
| ExternalAPIFailure (e : exn)
| Err (message : error_message) (error : option exn)
| UnknownDbType (db_type : string)
| SessionFailed (e : exn)
| SchedulerInitialized
| SchedulerInitFailed (e : exn)
| SchedulerStarted
| SchedulerStartFailed (e : exn)
| SchedulerStopped
| SchedulerStopFailed (e : exn).

(** The replies of [error_handler.py], by the line that sends them. *)
Inductive user_message :=
| NoPermission                      (* line 122: the caller may not run the command *)
| WrongUsage (e : exn)              (* line 128 *)
| BotLacksPermission                (* line 141 *)
| ExternalAPIUnreachable (e : exn)  (* line 146 *)
| UnexpectedError.                  (* line 160 *)

(** The call that carries a reply to the caller. *)
Inductive channel := by_print | by_reply | by_followup_send | by_response_send_message.

Inductive event :=
| Log (lvl : level) (text : log_text) (exc_info : bool)
    (* [logger.<lvl>(text, exc_info=...)] *)
| Sent (via : channel) (message : user_message) (ephemeral : bool)
    (* a reply the platform accepted *).

(** [bot_logger.log_error] *)
Definition log_error (error : option exn) (message : error_message) (exc_info : bool)
    : prog event unit :=
  emit (Log ERROR (Err message error) exc_info).

End Events.

(** ** utils/permission_handler.py *)
Module Permission.
Import Py Config Discord Events.

(** [_parse_list_from_ini] *)
Definition _parse_list_from_ini (config_str : string) : list string :=
  if negb (truthy config_str) then []
  else map strip (List.filter (fun item => truthy (strip item)) (split "," config_str)).

(** [[int(uid) for uid in _parse_list_from_ini(s) if uid.isdigit()]] *)
Definition parse_user_ids (s : string) : outcome (list Z) :=
  comprehension int (List.filter isdigit (_parse_list_from_ini s)).

Record PermissionManager := {
  config : ConfigParser;
  admin_role_names : list string;
  admin_user_ids : list Z
}.

(** [PermissionManager.__init__]: both lists start empty; the role names are
    assigned before the user ids are converted, so a failing conversion
    leaves the names in place and the ids empty. *)
Definition __init__ (cfg : ConfigParser) : prog event PermissionManager :=
  let admin_roles_str := get cfg "Permissions" "AdminRoles" "" in
  let admin_users_str := get cfg "Permissions" "AdminUsers" "" in
  let names := _parse_list_from_ini admin_roles_str in
  try_except
    (let! ids := lift (parse_user_ids admin_users_str) in
     do! emit (Log INFO (AdminRolesLoaded names) false) in
     do! emit (Log INFO (AdminUsersLoaded ids) false) in
     ret {| config := cfg; admin_role_names := names; admin_user_ids := ids |})
    [Exception]
    (fun e =>
     do! emit (Log ERROR (PermissionsSectionFailed e) true) in
     ret {| config := cfg; admin_role_names := names; admin_user_ids := [] |}).

(** [_get_ctx_or_interaction_member] *)
Definition _get_ctx_or_interaction_member (ctx : ctx_or_interaction) : option caller :=
  match ctx with
  | Context author _ => Some author
  | Interaction user _ _ _ => Some user
  | MockContext _ => None
  end.

(** [{role.name for role in member.roles}] *)
Definition role_names (roles : list Role) : gset string := list_to_set (map name roles).

(** [s.isdisjoint(other)] for a set [s] and a list [other]. *)
Definition isdisjoint (s : gset string) (other : list string) : bool :=
  forallb (fun x => bool_decide (x ∉ s)) other.

(** [is_bot_admin] *)
Definition is_bot_admin (self : PermissionManager) (member : object) : prog event bool :=
  match member with
  | other _ => ret false
  | discord c =>
      if bool_decide (id c ∈ admin_user_ids self) then ret true
      else
        match c with
        | User _ => ret false
        | Member member_id roles guild =>
            if bool_decide (owner_id guild = Some member_id) then ret true
            else
              try_except
                (let member_role_names := role_names roles in
                 if negb (isdisjoint member_role_names (admin_role_names self))
                 then ret true else ret false)
                [Exception]
                (fun e => do! emit (Log WARNING (RoleComparisonFailed e) false) in ret false)
        end
  end.

(** The section [_check_specific_permission] settles on: [Command_<f>] when
    the configuration has it, else [Feature_<f>], else none. *)
Definition feature_section (cfg : ConfigParser) (feature_name : string) : option string :=
  let section_name_cmd := "Command_" +:+ feature_name in
  let section_name_feat := "Feature_" +:+ feature_name in
  if contains cfg section_name_cmd then Some section_name_cmd
  else if contains cfg section_name_feat then Some section_name_feat
  else None.

(** The two lists [_check_specific_permission] reads from its section before
    it checks anything: [allowed_role_names] and [allowed_user_ids]. The
    conversion of the user ids may raise. *)
Definition feature_lists (cfg : ConfigParser) (section_name : string)
    : outcome (list string * list Z) :=
  let allowed_roles_str := get cfg section_name "AllowedRoles" "" in
  let allowed_users_str := get cfg section_name "AllowedUsers" "" in
  let allowed_role_names := _parse_list_from_ini allowed_roles_str in
  match parse_user_ids allowed_users_str with
  | Return allowed_user_ids => Return (allowed_role_names, allowed_user_ids)
  | Raise e => Raise e
  end.

(** [_check_specific_permission] *)
Definition _check_specific_permission (self : PermissionManager) (member : object)
    (feature_name : string) : prog event bool :=
  match feature_section (config self) feature_name with
  | None =>
      do! emit (Log DEBUG (NoFeatureSection feature_name) false) in
      ret false
  | Some section_name =>
      let! lists := lift (feature_lists (config self) section_name) in
      let '(allowed_role_names, allowed_user_ids) := lists in
      if bool_decide (object_id member ∈ allowed_user_ids) then ret true
      else
        match member with
        | discord (Member _ roles _) =>
            if negb (isdisjoint (role_names roles) allowed_role_names)
            then ret true else ret false
        | _ => ret false
        end
  end.

(** The predicate built by [admin_only]. *)
Definition admin_only (self : PermissionManager) (ctx : ctx_or_interaction) : prog event bool :=
  match _get_ctx_or_interaction_member ctx with
  | None => ret false
  | Some member =>
      let! admin := is_bot_admin self (discord member) in
      if admin then ret true else raise (new_CheckFailure [])
  end.

(** The predicate built by [requires_permission(feature_name)]. *)
Definition requires_permission (self : PermissionManager) (feature_name : string)
    (ctx : ctx_or_interaction) : prog event bool :=
  match _get_ctx_or_interaction_member ctx with
  | None => ret false
  | Some member =>
      let! admin := is_bot_admin self (discord member) in
      if admin then ret true
      else
        let! allowed := _check_specific_permission self (discord member) feature_name in
        if allowed then ret true else raise (new_CheckFailure [feature_name])
  end.

(** The check lets the command run exactly when its predicate returns
    [True]; returning [False] and raising both stop it. *)
Definition grants {E} (p : prog E bool) : bool :=
  match result p with Return true => true | _ => false end.

(** The same manager over a configuration in which section [section_name]
    has been replaced by [body], or removed when [body] is [None]. *)
Definition with_section (self : PermissionManager) (section_name : string)
    (body : option (gmap string string)) : PermissionManager :=
  {| config := {| defaults := defaults (config self);
                  sections := partial_alter (fun _ => body) section_name
                                (sections (config self)) |};
     admin_role_names := admin_role_names self;
     admin_user_ids := admin_user_ids self |}.

(** The configuration written by the self-test of the file, with role names
    in Latin letters. *)
Definition test_config : ConfigParser := {|
  defaults := ∅;
  sections :=
    {[ "Logging" := {[ "loglevel" := "DEBUG"; "notifyerrortodiscord" := "False" ]};
       "Permissions" := {[ "adminroles" := "BotAdmin, Staff";
                           "adminusers" := "100001, 100002" ]};
       "Command_hr_tool" := {[ "allowedroles" := "HR"; "allowedusers" := "200001" ]} ]}
|}.

Definition test_manager : PermissionManager :=
  {| config := test_config;
     admin_role_names := ["BotAdmin"; "Staff"];
     admin_user_ids := [100001; 100002] |}.

Definition test_guild : Guild := {| owner_id := Some 500000 |}.
Definition hr_by_id : caller := Member 200001 [] test_guild.
Definition hr_by_role : caller := Member 200002 [{| name := "HR" |}] test_guild.
Definition normal_user : caller := Member 300001 [{| name := "General" |}] test_guild.

(** The one-character string U+00B2, SUPERSCRIPT TWO. *)
Definition superscript_two : string := String "178"%char EmptyString.

Definition superscript_config : ConfigParser := {|
  defaults := ∅;
  sections := {[ "Command_hr_tool" := {[ "allowedusers" := superscript_two ]} ]}
|}.

Definition superscript_manager : PermissionManager :=
  {| config := superscript_config; admin_role_names := []; admin_user_ids := [] |}.

End Permission.

(** ** utils/error_handler.py *)
Module ErrorHandler.
Import Py Config Discord Events.

Definition ExternalAPIError : string := "ExternalAPIError".

(** [ExternalAPIError(message)] *)
Definition new_ExternalAPIError (message : string) : exn :=
  Exn [ExternalAPIError; Exception; "BaseException"] [message] None.

Record ErrorHandler := {
  config : ConfigParser;
  notify_user_on_error : bool
}.

(** [ErrorHandler.__init__] *)
Definition __init__ (cfg : ConfigParser) : prog event ErrorHandler :=
  let! flag :=
    try_except
      (lift (getboolean cfg "Logging" "NotifyErrorToDiscord" false))
      [Config.Error]
      (fun e => do! emit (Log WARNING (NotifyFlagUnreadable e) false) in ret false) in
  ret {| config := cfg; notify_user_on_error := flag |}.

(** [_send_error_message] *)
Definition _send_error_message (ctx : ctx_or_interaction) (message : user_message)
    (ephemeral : bool) : prog event unit :=
  match ctx with
  | MockContext _ => emit (Sent by_print message ephemeral)
  | _ =>
      try_except_clauses
        (match ctx with
         | Context _ reply =>
             do! lift reply in emit (Sent by_reply message ephemeral)
         | Interaction _ is_response_sent followup_send response_send_message =>
             let! already := lift is_response_sent in
             if (already : bool)
             then do! lift followup_send in emit (Sent by_followup_send message ephemeral)
             else do! lift response_send_message in
                  emit (Sent by_response_send_message message ephemeral)
         | MockContext _ => ret tt
         end)
        [ ([Forbidden], fun _ => log_error None SendForbidden false);
          ([Exception], fun e => log_error (Some e) SendFailed true) ]
  end.

(** [ctx_or_interaction.author]: an interaction has a [user] and no
    [author]. *)
Definition author_of (ctx : ctx_or_interaction) : outcome (caller + string) :=
  match ctx with
  | Context author _ => Return (inl author)
  | MockContext author => Return (inr author)
  | Interaction _ _ _ _ => Raise (AttributeError ["author"])
  end.

(** [process_command_error] *)
Definition process_command_error (self : ErrorHandler) (ctx : ctx_or_interaction)
    (error : exn) : prog event unit :=
  let original_error := getattr_original error in
  if isinstance original_error [CommandNotFound; app_CommandNotFound] then ret tt
  else if isinstance original_error [CheckFailure; app_CheckFailure] then
    _send_error_message ctx NoPermission true
  else if isinstance original_error [MissingRequiredArgument; BadArgument] then
    let! author := lift (author_of ctx) in
    do! emit (Log WARNING (UsageError author original_error) false) in
    _send_error_message ctx (WrongUsage original_error) true
  else if isinstance original_error [RateLimited] then
    emit (Log WARNING (RateLimitReached original_error) false)
  else if isinstance original_error [Forbidden] then
    do! log_error (Some original_error) ApiForbidden false in
    _send_error_message ctx BotLacksPermission true
  else if isinstance original_error [ExternalAPIError] then
    do! emit (Log WARNING (ExternalAPIFailure original_error) false) in
    _send_error_message ctx (ExternalAPIUnreachable original_error) true
  else
    do! log_error (Some original_error) Unexpected true in
    if notify_user_on_error self
    then _send_error_message ctx UnexpectedError true
    else ret tt.

(** The classes tested by the six rules that come before the last one. *)
Definition earlier_rules : list string :=
  [CommandNotFound; app_CommandNotFound; CheckFailure; app_CheckFailure;
   MissingRequiredArgument; BadArgument; RateLimited; Forbidden; ExternalAPIError].

(** The call by which a reply reaches the caller, when the platform accepts
    it; [None] when the call that would carry it raises. *)
Definition delivery (ctx : ctx_or_interaction) : option channel :=
  match ctx with
  | MockContext _ => Some by_print
  | Context _ (Return _) => Some by_reply
  | Interaction _ (Return true) (Return _) _ => Some by_followup_send
  | Interaction _ (Return false) _ (Return _) => Some by_response_send_message
  | _ => None
  end.


Definition test_author : caller := User 12345.
Definition forbidden_error : exn :=
  Exn [Forbidden; "discord.errors.HTTPException"; "discord.errors.DiscordException";
       Exception; "BaseException"] [] None.
Definition zero_division : exn := builtin "ZeroDivisionError" ["division by zero"].

End ErrorHandler.

(** ** utils/db_manager.py *)
Module Db.
Import Py Config Events.

Record DatabaseManager := { dsn : string }.

(** [DatabaseManager._build_dsn] *)
Definition _build_dsn (db_type db_dsn : string) : prog event string :=
  if String.eqb db_type "sqlite" then ret ("sqlite+aiosqlite:///" +:+ db_dsn)
  else if String.eqb db_type "postgresql" then ret ("postgresql+asyncpg://" +:+ db_dsn)
  else if String.eqb db_type "mysql" then ret ("mysql+aiomysql://" +:+ db_dsn)
  else do! emit (Log WARNING (UnknownDbType db_type) false) in
       ret ("sqlite+aiosqlite:///" +:+ db_dsn).

(** A row of the table [guild_settings]. *)
Record GuildSetting := {
  id : Z;
  guild_id : Z;
  setting_key : string;
  setting_value : option string
}.

(** The table with the counter of its autoincrement primary key. *)
Record Database := {
  guild_settings : list GuildSetting;
  next_id : Z
}.

(** The columns of the constraint [_guild_key_uc]. *)
Definition guild_key (row : GuildSetting) : Z * string := (guild_id row, setting_key row).

(** [where(GuildSetting.guild_id == guild_id, GuildSetting.setting_key == key)] *)
Definition selected (g : Z) (key : string) (row : GuildSetting) : bool :=
  (guild_id row =? g) && String.eqb (setting_key row) key.

(** [session.execute(q)] followed by [result.scalars().first()] *)
Definition first_selected (g : Z) (key : string) (db : Database) : option GuildSetting :=
  List.find (selected g key) (guild_settings db).

(** A block of statements run on a session: it sees the rows, may change
    them, and ends with a value or an exception. *)
Definition block (A : Type) : Type := Database -> prog event A * Database.

Definition IntegrityError : exn :=
  Exn ["sqlalchemy.exc.IntegrityError"; "sqlalchemy.exc.SQLAlchemyError"; Exception;
       "BaseException"] [] None.

(** The body of [get_session] around the block that receives the session:
    commit when the block ends normally, roll back, log and re-raise when the
    block or the commit raises an [Exception]. The commit is refused when a
    key column is duplicated. *)
Definition session_scope {A} (body : block A) : block A := fun db =>
  match body db with
  | ((Return a, t), pending) =>
      if bool_decide (NoDup (map id (guild_settings pending))
                      /\ NoDup (map guild_key (guild_settings pending)))
      then ((Return a, t), pending)
      else ((Raise IntegrityError, t ++ [Log ERROR (SessionFailed IntegrityError) true]), db)
  | ((Raise e, t), _) =>
      if isinstance e [Exception]
      then ((Raise e, t ++ [Log ERROR (SessionFailed e) true]), db)
      else ((Raise e, t), db)
  end.

(** The objects an [async with] statement is given in this file. *)
Inductive session_source :=
| async_generator
    (* the value of calling an [async def] whose body has a [yield]: it can
       be iterated, and has neither [__aenter__] nor [__aexit__] *)
| async_context_manager
    (* the value of calling such a function once it is wrapped by
       [contextlib.asynccontextmanager] *).

(** [DatabaseManager.get_session]: an [async def] with a [yield] and no
    decorator. *)
Definition get_session (self : DatabaseManager) : session_source := async_generator.

(** [contextlib.asynccontextmanager], which [db_manager.py] does not apply. *)
Definition asynccontextmanager (f : DatabaseManager -> session_source)
    : DatabaseManager -> session_source :=
  fun _ => async_context_manager.

(** [async with source as session: body] *)
Definition async_with {A} (source : session_source) (body : block A) : block A :=
  match source with
  | async_generator => fun db => (raise (TypeError ["async_generator"]), db)
  | async_context_manager => session_scope body
  end.

Record GuildSettingRepository := { db_manager : DatabaseManager }.

Definition with_value (row : GuildSetting) (value : string) : GuildSetting :=
  {| id := id row; guild_id := guild_id row; setting_key := setting_key row;
     setting_value := Some value |}.

(** The statements of [set_setting] inside its [async with]. *)
Definition set_setting_block (g : Z) (key value : string) : block unit := fun db =>
  match first_selected g key db with
  | Some existing_setting =>
      (ret tt,
       {| guild_settings :=
            map (fun row => if id row =? id existing_setting then with_value row value else row)
                (guild_settings db);
          next_id := next_id db |})
  | None =>
      (ret tt,
       {| guild_settings :=
            guild_settings db
            ++ [ {| id := next_id db; guild_id := g; setting_key := key;
                    setting_value := Some value |} ];
          next_id := next_id db + 1 |})
  end.

(** The statements of [get_setting] inside its [async with]. *)
Definition get_setting_block (g : Z) (key : string) : block (option string) := fun db =>
  (ret (first_selected g key db ≫= setting_value), db).

(** The statements of [delete_setting] inside its [async with]. *)
Definition delete_setting_block (g : Z) (key : string) : block bool := fun db =>
  match first_selected g key db with
  | Some setting_to_delete =>
      (ret true,
       {| guild_settings :=
            List.filter (fun row => negb (id row =? id setting_to_delete)) (guild_settings db);
          next_id := next_id db |})
  | None => (ret false, db)
  end.

(** [GuildSettingRepository.set_setting] *)
Definition set_setting (self : GuildSettingRepository) (g : Z) (key value : string)
    : block unit :=
  async_with (get_session (db_manager self)) (set_setting_block g key value).

(** [GuildSettingRepository.get_setting] *)
Definition get_setting (self : GuildSettingRepository) (g : Z) (key : string)
    : block (option string) :=
  async_with (get_session (db_manager self)) (get_setting_block g key).

(** [GuildSettingRepository.delete_setting] *)
Definition delete_setting (self : GuildSettingRepository) (g : Z) (key : string)
    : block bool :=
  async_with (get_session (db_manager self)) (delete_setting_block g key).

(** One awaited call after another: an exception of the first ends the
    sequence. *)
Definition and_then {A B} (first : block A) (next : A -> block B) : block B :=
  fun db =>
    match first db with
    | ((Return a, t), db') =>
        let '((r, t'), db'') := next a db' in ((r, t ++ t'), db'')
    | ((Raise e, t), db') => ((Raise e, t), db')
    end.

(** The rows respect the primary key and the constraint [_guild_key_uc], and
    the counter is above every id in use. *)
Definition consistent (db : Database) : Prop :=
  NoDup (map id (guild_settings db))
  /\ NoDup (map guild_key (guild_settings db))
  /\ Forall (fun row => id row < next_id db) (guild_settings db).

Definition test_repository : GuildSettingRepository :=
  {| db_manager := {| dsn := "sqlite+aiosqlite:///db/bot.db" |} |}.
Definition empty_database : Database := {| guild_settings := []; next_id := 1 |}.
Definition prefix_database : Database :=
  {| guild_settings := [ {| id := 1; guild_id := 999999; setting_key := "prefix";
                           setting_value := Some "!" |} ];
     next_id := 2 |}.

End Db.

(** ** utils/task_scheduler.py *)
Module Scheduler.
Import Py Config Events Db.

(** The objects of the apscheduler library. The job store is only opened by
    [scheduler.start()]; each scheduler carries what its [start] and
    [shutdown] do when they are called. *)
Record SQLAlchemyJobStore := { url : string }.

Record AsyncIOScheduler := {
  jobstores : SQLAlchemyJobStore;
  scheduler_start : outcome unit;
  scheduler_shutdown : outcome unit
}.

(** The constructors of the library, which may raise. *)
Record apscheduler := {
  new_SQLAlchemyJobStore : string -> outcome SQLAlchemyJobStore;
  new_AsyncIOScheduler : SQLAlchemyJobStore -> outcome AsyncIOScheduler
}.

Record TaskScheduler := {
  config : ConfigParser;
  db_manager : DatabaseManager;
  scheduler : AsyncIOScheduler
}.

(** [TaskScheduler.__init__] *)
Definition __init__ (lib : apscheduler) (cfg : ConfigParser) (manager : DatabaseManager)
    : prog event TaskScheduler :=
  try_except
    (let db_type := get cfg "Database" "Type" "sqlite" in
     let db_dsn := get cfg "Database" "DSN" "db/bot.db" in
     let! full_dsn := _build_dsn db_type db_dsn in
     let! store := lift (new_SQLAlchemyJobStore lib full_dsn) in
     let! sched := lift (new_AsyncIOScheduler lib store) in
     do! emit (Log INFO SchedulerInitialized false) in
     ret {| config := cfg; db_manager := manager; scheduler := sched |})
    [Exception]
    (fun e => do! emit (Log CRITICAL (SchedulerInitFailed e) true) in raise e).

(** [TaskScheduler.start] *)
Definition start (self : TaskScheduler) : prog event unit :=
  try_except
    (do! lift (scheduler_start (scheduler self)) in emit (Log INFO SchedulerStarted false))
    [Exception]
    (fun e => emit (Log ERROR (SchedulerStartFailed e) true)).

(** [TaskScheduler.shutdown] *)
Definition shutdown (self : TaskScheduler) : prog event unit :=
  try_except
    (do! lift (scheduler_shutdown (scheduler self)) in emit (Log INFO SchedulerStopped false))
    [Exception]
    (fun e => emit (Log ERROR (SchedulerStopFailed e) true)).

(** The error of a database that cannot be reached. *)
Definition OperationalError : exn :=
  Exn ["sqlalchemy.exc.OperationalError"; "sqlalchemy.exc.DBAPIError";
       "sqlalchemy.exc.SQLAlchemyError"; Exception; "BaseException"]
      ["unable to open database file"] None.

(** A scheduler whose job store cannot be reached when it starts. *)
Definition unreachable_scheduler : TaskScheduler :=
  {| config := {| defaults := ∅; sections := ∅ |};
     db_manager := {| dsn := "sqlite+aiosqlite:///db/bot.db" |};
     scheduler := {| jobstores := {| url := "sqlite+aiosqlite:///db/bot.db" |};
                     scheduler_start := Raise OperationalError;
                     scheduler_shutdown := Return tt |} |}.

(** A library whose job store constructor fails. *)
Definition failing_library : apscheduler :=
  {| new_SQLAlchemyJobStore := fun _ => Raise OperationalError;
     new_AsyncIOScheduler := fun store =>
       Return {| jobstores := store; scheduler_start := Return tt;
                 scheduler_shutdown := Return tt |} |}.

End Scheduler.

(** ** Strings as lists of characters *)
Module Text.
Import Py.

(** The characters of a string. *)
Abbreviation chars := list_ascii_of_string.

(** [lstrip] on the characters. *)
Fixpoint drop_spaces (l : list ascii) : list ascii :=
  match l with
  | c :: l' => if isspace_char c then drop_spaces l' else l
  | [] => []
  end.

(** Empty, or beginning with a character that is not white space. *)
Definition starts_clean (l : list ascii) : Prop :=
  match l with
  | [] => True
  | c :: _ => isspace_char c = false
  end.

End Text.

(** ** Counting the events of a run *)
Module Traces.
Import Py Events.

Definition is_sent (ev : event) : bool :=
  match ev with Sent _ _ _ => true | Log _ _ _ => false end.

Definition is_log (ev : event) : bool :=
  match ev with Log _ _ _ => true | Sent _ _ _ => false end.

(** The replies and the log records among the events. *)
Definition replies (t : list event) : list event := List.filter is_sent t.
Definition records (t : list event) : list event := List.filter is_log t.


End Traces.

(** ** utils/task_scheduler.py: the job table *)
Module Tasks.
Import Py Events Scheduler.

(** Keyword arguments, as written at the call. *)
Definition kwargs : Type := list (string * string).

(** A trigger object of the library. *)
Inductive trigger_instance :=
| CronTrigger (args : kwargs)
| IntervalTrigger (args : kwargs)
| DateTrigger (args : kwargs).

(** What [scheduler.add_job] is given. *)
Record job := {
  func : string;
  trigger : trigger_instance;
  id : string;
  job_kwargs : list string;
  misfire_grace_time : Z
}.

(** The jobs the scheduler holds, by id. *)
Abbreviation job_table := (gmap string job).

(** The calls [add_task] and [remove_task] make into the library: the three
    trigger constructors, which check their arguments and may raise, and the
    two operations on the job table. *)
Record job_library := {
  new_CronTrigger : kwargs -> outcome trigger_instance;
  new_IntervalTrigger : kwargs -> outcome trigger_instance;
  new_DateTrigger : kwargs -> outcome trigger_instance;
  add_job : job -> forall replace_existing : bool, job_table -> outcome unit * job_table;
  remove_job : string -> job_table -> outcome unit * job_table
}.

Inductive task_log :=
| UnknownTrigger (trigger : string)                         (* line 139 *)
| TaskAdded (task_id trigger : string) (args : kwargs)      (* line 152 *)
| TaskAddFailed (task_id : string) (e : exn)                (* line 155 *)
| TaskRemoved (task_id : string)                            (* line 167 *)
| TaskRemoveFailed (task_id : string) (e : exn).            (* line 169 *)

Inductive task_event := TaskLog (lvl : level) (text : task_log) (exc_info : bool).

(** A method that works on the job table. *)
Definition task_method : Type := job_table -> prog task_event unit * job_table.

(** The constructor [add_task] picks for a trigger name, if any. *)
Definition trigger_constructor (lib : job_library) (trigger : string)
    : option (kwargs -> outcome trigger_instance) :=
  if String.eqb trigger "cron" then Some (new_CronTrigger lib)
  else if String.eqb trigger "interval" then Some (new_IntervalTrigger lib)
  else if String.eqb trigger "date" then Some (new_DateTrigger lib)
  else None.

(** [TaskScheduler.add_task] *)
Definition add_task (lib : job_library) (func trigger task_id : string)
    (trigger_args : kwargs) : task_method := fun jobs =>
  let task_kwargs := ["bot"; "db_manager"; "logger"] in
  match trigger_constructor lib trigger with
  | None => (emit (TaskLog ERROR (UnknownTrigger trigger) false), jobs)
  | Some new_trigger =>
      match new_trigger trigger_args with
      | Raise e => (raise e, jobs)
      | Return trigger_instance =>
          let '(added, jobs') :=
            add_job lib {| func := func; trigger := trigger_instance; id := task_id;
                           job_kwargs := task_kwargs; misfire_grace_time := 300 |}
                    true jobs in
          (try_except
             (do! lift added in emit (TaskLog INFO (TaskAdded task_id trigger trigger_args) false))
             [Exception]
             (fun e => emit (TaskLog ERROR (TaskAddFailed task_id e) true)),
           jobs')
      end
  end.

(** The job [add_task] hands to [add_job]. *)
Definition registered (func : string) (made : trigger_instance) (task_id : string) : job :=
  {| func := func; trigger := made; id := task_id;
     job_kwargs := ["bot"; "db_manager"; "logger"]; misfire_grace_time := 300 |}.



Definition lookup_error (name : string) (task_id : string) : exn :=
  Exn [name; "KeyError"; "LookupError"; Exception; "BaseException"] [task_id] None.

(** The job table as the library documents it: constructors that accept
    their arguments, [add_job] that refuses an id already present unless
    [replace_existing] is set, [remove_job] that refuses an id it does not
    hold. *)
Definition documented_library : job_library := {|
  new_CronTrigger := fun args => Return (CronTrigger args);
  new_IntervalTrigger := fun args => Return (IntervalTrigger args);
  new_DateTrigger := fun args => Return (DateTrigger args);
  add_job := fun j replace_existing jobs =>
    if replace_existing || negb (bool_decide (is_Some (jobs !! id j)))
    then (Return tt, <[id j := j]> jobs)
    else (Raise (lookup_error "apscheduler.jobstores.base.ConflictingIdError" (id j)), jobs);
  remove_job := fun task_id jobs =>
    if bool_decide (is_Some (jobs !! task_id))
    then (Return tt, delete task_id jobs)
    else (Raise (lookup_error "apscheduler.jobstores.base.JobLookupError" task_id), jobs)
|}.

End Tasks.

(** ** utils/db_manager.py: construction and schema *)
Module DbSetup.
Import Py Config Events Db.

(** [os.path.dirname] for POSIX paths: everything up to the last slash,
    without trailing slashes unless it consists of slashes only. *)
Fixpoint drop_slashes (l : list ascii) : list ascii :=
  match l with
  | c :: l' => if Ascii.eqb c "/" then drop_slashes l' else l
  | [] => []
  end.

Fixpoint after_last_slash_dropped (l : list ascii) : list ascii :=
  (* the reversed path from its first slash on *)
  match l with
  | c :: l' => if Ascii.eqb c "/" then l else after_last_slash_dropped l'
  | [] => []
  end.

Definition dirname (path : string) : string :=
  let head := after_last_slash_dropped (rev (list_ascii_of_string path)) in
  match drop_slashes head with
  | [] => string_of_list_ascii (rev head)
  | trimmed => string_of_list_ascii (rev trimmed)
  end.

(** The file system and the database driver, as far as the constructor and
    [init_db_schema] touch them. *)
Record platform := {
  exists_ : string -> bool;                        (* [os.path.exists] *)
  makedirs : string -> outcome unit;               (* [os.makedirs] *)
  create_async_engine : string -> outcome unit;    (* with [async_sessionmaker] *)
  engine_begin : outcome unit;                     (* entering [engine.begin()] *)
  create_all : outcome unit;                       (* [conn.run_sync(Base.metadata.create_all)] *)
  engine_commit : outcome unit                     (* leaving [engine.begin()] *)
}.

Inductive setup_log :=
| Build (ev : event)                     (* a record of [_build_dsn] *)
| DirectoryCreated (db_dir : string)     (* line 52 *)
| ConnectionReady (db_type : string)     (* line 65 *)
| EngineFailed (e : exn)                 (* line 68 *)
| SchemaReady                            (* line 107 *)
| SchemaFailed (e : exn).                (* line 109 *)

Inductive setup_event :=
| SetupLog (lvl : level) (text : setup_log) (exc_info : bool)
| MadeDirectory (db_dir : string).

Definition made_directory (ev : setup_event) : bool :=
  match ev with MadeDirectory _ => true | SetupLog _ _ _ => false end.

Definition is_critical (ev : setup_event) : bool :=
  match ev with SetupLog CRITICAL _ _ => true | _ => false end.

(** The records of [_build_dsn], among those of the constructor. *)
Definition build_dsn (db_type db_dsn : string) : prog setup_event string :=
  let '(r, t) := _build_dsn db_type db_dsn in
  (r, map (fun ev => match ev with
                     | Log lvl _ exc => SetupLog lvl (Build ev) exc
                     | Sent _ _ _ => SetupLog INFO (Build ev) false
                     end) t).

(** [DatabaseManager.__init__] *)
Definition __init__ (os : platform) (config : ConfigParser) : prog setup_event DatabaseManager :=
  let db_type := get config "Database" "Type" "sqlite" in
  let db_dsn := get config "Database" "DSN" "db/bot.db" in
  let! full_dsn := build_dsn db_type db_dsn in
  do! (if String.eqb db_type "sqlite" && truthy db_dsn then
         let db_dir := dirname db_dsn in
         if truthy db_dir && negb (exists_ os db_dir) then
           do! lift (makedirs os db_dir) in
           do! emit (MadeDirectory db_dir) in
           emit (SetupLog INFO (DirectoryCreated db_dir) false)
         else ret tt
       else ret tt) in
  try_except
    (do! lift (create_async_engine os full_dsn) in
     do! emit (SetupLog INFO (ConnectionReady db_type) false) in
     ret {| dsn := full_dsn |})
    [Exception]
    (fun e => do! emit (SetupLog CRITICAL (EngineFailed e) true) in raise e).

(** [DatabaseManager.init_db_schema] *)
Definition init_db_schema (os : platform) : prog setup_event unit :=
  do! lift (engine_begin os) in
  do! try_except
        (do! lift (create_all os) in emit (SetupLog INFO SchemaReady false))
        [Exception]
        (fun e => emit (SetupLog ERROR (SchemaFailed e) true)) in
  lift (engine_commit os).

End DbSetup.

(** ** utils/config_manager.py *)
Module ConfigManager.
Import Py Config.

(** The process environment and the files, as far as the constructor reads
    them. [load_dotenv] does not replace a variable the environment already
    has, and is silent about a missing file; [config.read] skips a file it
    cannot open and raises on one it cannot parse. *)
Record platform := {
  environ_token : option string;            (* [DISCORD_BOT_TOKEN] before [load_dotenv] *)
  dotenv_token : string -> option string;   (* its value in the [.env] file at a path *)
  path_exists : string -> bool;             (* [os.path.exists] *)
  read_ini : string -> outcome ConfigParser (* [config.read(path, encoding='utf-8')] *)
}.

Record ConfigManager := {
  env_path : string;
  config_path : string;
  discord_bot_token : string;
  config : ConfigParser
}.

Definition FileNotFoundError (args : list string) : exn :=
  Exn ["FileNotFoundError"; "OSError"; Exception; "BaseException"] args None.

(** [os.getenv('DISCORD_BOT_TOKEN')] after [load_dotenv(env_path)] *)
Definition getenv_token (os : platform) (env_path : string) : option string :=
  match environ_token os with
  | Some token => Some token
  | None => dotenv_token os env_path
  end.

(** [_load_env] *)
Definition _load_env (os : platform) (env_path : string) : outcome string :=
  match getenv_token os env_path with
  | Some token => if truthy token then Return token else Raise (ValueError [env_path])
  | None => Raise (ValueError [env_path])
  end.

(** [_load_ini] *)
Definition _load_ini (os : platform) (config_path : string) : outcome ConfigParser :=
  if negb (path_exists os config_path) then Raise (FileNotFoundError [config_path])
  else read_ini os config_path.

(** [ConfigManager.__init__] *)
Definition __init__ (os : platform) (env_path config_path : string) : outcome ConfigManager :=
  match _load_env os env_path with
  | Raise e => Raise e
  | Return token =>
      match _load_ini os config_path with
      | Raise e => Raise e
      | Return cfg =>
          Return {| env_path := env_path; config_path := config_path;
                    discord_bot_token := token; config := cfg |}
      end
  end.


(** [key in self.config[section_name]]: true of an option of the section and
    of an option of [DEFAULT]. *)
Definition section_has (cfg : ConfigParser) (section_name key : string) : bool :=
  bool_decide (is_Some (find cfg section_name key)).

(** [get_guild_setting] *)
Definition get_guild_setting (self : ConfigManager) (guild_id : Z) (key : string)
    : option string :=
  let section_name := "Guild_" +:+ pretty guild_id in
  if contains (config self) section_name && section_has (config self) section_name key
  then find (config self) section_name key
  else if contains (config self) "BotSettings" && section_has (config self) "BotSettings" key
  then find (config self) "BotSettings" key
  else None.

(** The same manager over a configuration in which the section of guild
    [guild_id] has been replaced by [body], or removed when [body] is
    [None]. *)
Definition with_guild_section (self : ConfigManager) (guild_id : Z)
    (body : option (gmap string string)) : ConfigManager :=
  {| env_path := env_path self; config_path := config_path self;
     discord_bot_token := discord_bot_token self;
     config := {| defaults := defaults (config self);
                  sections := partial_alter (fun _ => body) ("Guild_" +:+ pretty guild_id)
                                (sections (config self)) |} |}.

Definition sample_manager : ConfigManager :=
  {| env_path := ".env"; config_path := "config.ini"; discord_bot_token := "token";
     config := {| defaults := {[ "prefix" := "?" ]};
                  sections := {[ "BotSettings" := {[ "prefix" := "!" ]};
                                 "Guild_42" := {[ "lang" := "ja" ]} ]} |} |}.


End ConfigManager.

(** ** utils/bot_logger.py *)
Module Logger.
Import Py Config Events.

(** [c.upper()], as code points: three characters below 256 have an upper
    case outside that range or of two characters. *)
Definition upper_char (c : ascii) : list N :=
  let n := code c in
  (if between 97 122 n then [n - 32]
   else if n =? 181 then [924]
   else if n =? 223 then [83; 83]
   else if n =? 255 then [376]
   else if between 224 254 n && negb (n =? 247) then [n - 32]
   else [n])%N.

Definition points (s : string) : list N := map code (list_ascii_of_string s).

(** [s.upper()] *)
Definition upper (s : string) : list N := flat_map upper_char (list_ascii_of_string s).

Definition LOG_LEVEL_MAP : list (string * level) :=
  [("DEBUG", DEBUG); ("INFO", INFO); ("WARN", WARNING); ("WARNING", WARNING);
   ("ERROR", ERROR); ("CRITICAL", CRITICAL)].

(** [LOG_LEVEL_MAP.get(log_level_str.upper(), logging.INFO)] *)
Definition level_of (log_level_str : string) : level :=
  match List.find (fun entry => bool_decide (points (fst entry) = upper log_level_str))
          LOG_LEVEL_MAP with
  | Some entry => snd entry
  | None => INFO
  end.

Inductive handler :=
| RotatingFileHandler (path : string) (maxBytes backupCount : Z) (lvl : level)
| StreamHandler (lvl : level).

(** The logger named [bot]: its level, its own handlers, and whether a
    logger above it has handlers. *)
Record Logger := {
  logger_level : level;
  handlers : list handler;
  ancestors_have_handlers : bool
}.

(** [logger.hasHandlers()] *)
Definition hasHandlers (logger : Logger) : bool :=
  match handlers logger with
  | [] => ancestors_have_handlers logger
  | _ => true
  end.

(** What [setup_logging] calls outside the module: [config.getint], and the
    file system when the directory of the log file is made and the file is
    opened for the rotating handler. *)
Record platform := {
  getint : ConfigParser -> string -> string -> Z -> outcome Z;
  open_log_file : string -> outcome unit
}.

Inductive logger_event :=
| ConfigReadErrorPrinted (e : exn)                       (* line 37 *)
| LogFileErrorPrinted (log_file_path : string) (e : exn) (* line 79 *)
| SetupDone.                                             (* line 87, at level INFO *)

Definition OSError : string := "OSError".

(** [setup_logging] *)
Definition setup_logging (os : platform) (config : ConfigParser) (logger : Logger)
    : prog logger_event Logger :=
  let! settings :=
    try_except
      (let log_level_str := get config "Logging" "LogLevel" "INFO" in
       let log_file_path := get config "Logging" "LogFile" "logs/bot.log" in
       let! max_bytes := lift (getint os config "Logging" "LogMaxBytes" 10485760) in
       let! backup_count := lift (getint os config "Logging" "LogBackupCount" 5) in
       ret (log_level_str, log_file_path, max_bytes, backup_count))
      [Config.Error]
      (fun e =>
       do! emit (ConfigReadErrorPrinted e) in
       ret ("INFO", "logs/bot.log", 10485760, 5)) in
  let '(log_level_str, log_file_path, max_bytes, backup_count) := settings in
  let log_level := level_of log_level_str in
  let cleared := if hasHandlers logger then [] else handlers logger in
  let! with_file :=
    try_except
      (do! lift (open_log_file os log_file_path) in
       ret (cleared ++ [RotatingFileHandler log_file_path max_bytes backup_count log_level]))
      [OSError]
      (fun e => do! emit (LogFileErrorPrinted log_file_path e) in ret cleared) in
  do! emit SetupDone in
  ret {| logger_level := log_level;
         handlers := with_file ++ [StreamHandler log_level];
         ancestors_have_handlers := ancestors_have_handlers logger |}.


End Logger.

(** ** Facts about the Python model *)
Module PyFacts.
Import Py.

Lemma bind_ret_l {E A B} (a : A) (k : A -> prog E B) : bind (ret a) k = k a.
Proof. unfold bind, ret. destruct (k a) as [r t]. reflexivity. Qed.

Lemma bind_raise_l {E A B} (e : exn) (k : A -> prog E B) : bind (raise e) k = raise e.
Proof. reflexivity. Qed.

Lemma bind_emit_l {E B} (ev : E) (k : unit -> prog E B) :
  bind (emit ev) k = (result (k tt), ev :: trace (k tt)).
Proof. unfold bind, emit, result, trace. destruct (k tt) as [r t]. reflexivity. Qed.

Lemma try_except_ret {E A} (a : A) cls (h : exn -> prog E A) :
  try_except (ret a) cls h = ret a.
Proof. reflexivity. Qed.

Example split_keeps_empty_items : split "," "a, b ,,c" = ["a"; " b "; ""; "c"].
Proof. reflexivity. Qed.

Example strip_both_ends : strip "  HR team " = "HR team".
Proof. reflexivity. Qed.

Example int_of_decimals : isdigit "0123" = true /\ int "0123" = Return 123.
Proof. split; reflexivity. Qed.

Example lower_option_name : lower "AllowedRoles" = "allowedroles".
Proof. reflexivity. Qed.

(** On strings of decimal digits [isdigit] and [int] agree. *)
Lemma decimal_chars_are_digits (s : string) :
  all_chars isdecimal_char s = true -> all_chars isdigit_char s = true.
Proof.
  induction s as [|c s IH]; [reflexivity|]. simpl.
  intros Hd. apply andb_true_iff in Hd. destruct Hd as [Hc Hs].
  rewrite (IH Hs), andb_true_r. unfold isdigit_char. rewrite Hc. reflexivity.
Qed.

Lemma int_of_decimal_string (s : string) :
  truthy s = true -> all_chars isdecimal_char s = true ->
  isdigit s = true /\ int s = Return (decimal_value 0 s).
Proof.
  intros Ht Hd. unfold isdigit, int.
  rewrite Ht, Hd, (decimal_chars_are_digits s Hd). split; reflexivity.
Qed.

End PyFacts.

Module PermissionFacts.
Import Py PyFacts Config Discord Events Permission.

Lemma isdisjoint_empty_intersection (s : gset string) (l : list string) :
  isdisjoint s l = true <-> s ∩ list_to_set l = ∅.
Proof.
  unfold isdisjoint. induction l as [|x l IH]; simpl.
  - split; [set_solver | reflexivity].
  - rewrite andb_true_iff, bool_decide_eq_true, IH. set_solver.
Qed.

Lemma overlap_iff (s : gset string) (l : list string) :
  negb (isdisjoint s l) = true <-> s ∩ list_to_set l ≠ ∅.
Proof.
  rewrite negb_true_iff, <- not_true_iff_false, isdisjoint_empty_intersection. reflexivity.
Qed.

Lemma overlap_decide (s : gset string) (l : list string) :
  negb (isdisjoint s l) = bool_decide (s ∩ list_to_set l ≠ ∅).
Proof.
  apply eq_true_iff_eq. rewrite overlap_iff, bool_decide_eq_true. reflexivity.
Qed.

Lemma is_bot_admin_total (self : PermissionManager) (member : object) :
  exists b, is_bot_admin self member = ret b.
Proof.
  unfold is_bot_admin. destruct member as [c|i]; [|eauto].
  destruct (bool_decide _); [eauto|].
  destruct c as [member_id roles guild|uid]; [|eauto].
  destruct (bool_decide _); [eauto|].
  destruct (negb _); eauto.
Qed.

(** The constructor on the configuration of the self-test. *)
Example init_test_config :
  __init__ test_config
  = (Return test_manager,
     [Log INFO (AdminRolesLoaded ["BotAdmin"; "Staff"]) false;
      Log INFO (AdminUsersLoaded [100001; 100002]) false]).
Proof. reflexivity. Qed.

(** The constructor catches the conversion error that
    [_check_specific_permission] lets through: the admin ids stay empty. *)
Example init_catches_conversion_error :
  __init__ {| defaults := ∅;
              sections := {[ "Permissions" := {[ "adminroles" := "Staff";
                                                 "adminusers" := superscript_two ]} ]} |}
  = (Return {| config := {| defaults := ∅;
                            sections := {[ "Permissions" :=
                                             {[ "adminroles" := "Staff";
                                                "adminusers" := superscript_two ]} ]} |};
               admin_role_names := ["Staff"];
               admin_user_ids := [] |},
     [Log ERROR (PermissionsSectionFailed (ValueError [superscript_two])) true]).
Proof. reflexivity. Qed.

(** The cases of the self-test, on members of a guild. *)
Example self_test_cases :
  is_bot_admin test_manager (discord (Member 100001 [] test_guild)) = ret true
  /\ is_bot_admin test_manager (discord (Member 100003 [{| name := "Staff" |}] test_guild))
     = ret true
  /\ is_bot_admin test_manager (discord (Member 500000 [] test_guild)) = ret true
  /\ is_bot_admin test_manager (discord hr_by_role) = ret false
  /\ is_bot_admin test_manager (discord normal_user) = ret false
  /\ _check_specific_permission test_manager (discord hr_by_role) "hr_tool" = ret true
  /\ _check_specific_permission test_manager (discord hr_by_id) "hr_tool" = ret true
  /\ _check_specific_permission test_manager (discord normal_user) "hr_tool" = ret false
  /\ _check_specific_permission test_manager (discord (Member 100001 [] test_guild)) "hr_tool"
     = ret false.
Proof. repeat split. Qed.

(** An object that is neither a member nor a user is never an admin, whatever
    its id. *)
Example foreign_object_is_not_admin :
  is_bot_admin test_manager (other 100001) = ret false.
Proof. reflexivity. Qed.

(** C1. For every caller, [is_bot_admin] returns, in this order: true when the
    caller's id is among the admin user ids; else false for a bare user (no
    guild member context); else true for the owner of the guild; else true
    when the caller's role names and the admin role names intersect; else
    false. *)
Theorem is_bot_admin_order (self : PermissionManager) (c : caller) :
  is_bot_admin self (discord c) =
  ret (if decide (id c ∈ admin_user_ids self) then true
       else match c with
            | User _ => false
            | Member member_id roles guild =>
                if decide (owner_id guild = Some member_id) then true
                else if decide (role_names roles ∩ list_to_set (admin_role_names self) ≠ ∅)
                     then true
                     else false
            end).
Proof.
  unfold is_bot_admin. destruct (decide (id c ∈ admin_user_ids self)) as [Hin|Hin].
  - rewrite bool_decide_eq_true_2 by exact Hin. reflexivity.
  - rewrite bool_decide_eq_false_2 by exact Hin.
    destruct c as [member_id roles guild|uid]; [|reflexivity].
    destruct (decide (owner_id guild = Some member_id)) as [Ho|Ho].
    + rewrite bool_decide_eq_true_2 by exact Ho. reflexivity.
    + rewrite bool_decide_eq_false_2 by exact Ho.
      rewrite overlap_decide.
      destruct (decide (role_names roles ∩ list_to_set (admin_role_names self) ≠ ∅)) as [Hr|Hr].
      * rewrite bool_decide_eq_true_2 by exact Hr. reflexivity.
      * rewrite bool_decide_eq_false_2 by exact Hr. reflexivity.
Qed.




Lemma feature_section_none (cfg : ConfigParser) (feature_name : string) :
  contains cfg ("Command_" +:+ feature_name) = false ->
  contains cfg ("Feature_" +:+ feature_name) = false ->
  feature_section cfg feature_name = None.
Proof. intros H1 H2. unfold feature_section. rewrite H1, H2. reflexivity. Qed.

(** C3. For a feature with neither a [Command_] nor a [Feature_] section, the
    result of the feature check for any caller is that of [is_bot_admin]. *)
Theorem unconfigured_feature_is_admin_only (self : PermissionManager) (feature_name : string)
    (ctx : ctx_or_interaction) (c : caller) :
  _get_ctx_or_interaction_member ctx = Some c ->
  contains (config self) ("Command_" +:+ feature_name) = false ->
  contains (config self) ("Feature_" +:+ feature_name) = false ->
  Return (grants (requires_permission self feature_name ctx))
  = result (is_bot_admin self (discord c)).
Proof.
  intros Hc H1 H2. unfold requires_permission. rewrite Hc.
  destruct (is_bot_admin_total self (discord c)) as [admin Hadmin]. rewrite Hadmin, bind_ret_l.
  destruct admin; [reflexivity|].
  unfold _check_specific_permission. rewrite (feature_section_none _ _ H1 H2). reflexivity.
Qed.

Lemma unconfigured_feature_is_admin_only_witness :
  Return (grants (requires_permission test_manager "ping" (Context normal_user (Return tt))))
  = result (is_bot_admin test_manager (discord normal_user)).
Proof.
  apply (unconfigured_feature_is_admin_only test_manager "ping"
           (Context normal_user (Return tt)) normal_user); reflexivity.
Defined.

Lemma command_ne_feature (feature_name : string) :
  "Feature_" +:+ feature_name <> "Command_" +:+ feature_name.
Proof. simpl. discriminate. Qed.

Lemma contains_with_section (self : PermissionManager) (changed : string)
    (body : option (gmap string string)) (section_name : string) :
  changed <> section_name ->
  contains (config (with_section self changed body)) section_name
  = contains (config self) section_name.
Proof.
  intros Hne. unfold contains, with_section; simpl.
  rewrite lookup_partial_alter_ne by exact Hne. reflexivity.
Qed.

Lemma find_with_section (self : PermissionManager) (changed : string)
    (body : option (gmap string string)) (section_name opt : string) :
  changed <> section_name ->
  find (config (with_section self changed body)) section_name opt
  = find (config self) section_name opt.
Proof.
  intros Hne. unfold find, with_section; simpl.
  rewrite lookup_partial_alter_ne by exact Hne. reflexivity.
Qed.

(** C10. When the configuration has [Command_<f>], the feature check works on
    that section, and its result does not depend on [Feature_<f>]: replacing
    or removing [Feature_<f>] changes nothing. *)
Theorem command_section_shadows_feature_section (self : PermissionManager)
    (member : object) (feature_name : string) :
  contains (config self) ("Command_" +:+ feature_name) = true ->
  feature_section (config self) feature_name = Some ("Command_" +:+ feature_name)
  /\ forall body,
       _check_specific_permission
         (with_section self ("Feature_" +:+ feature_name) body) member feature_name
       = _check_specific_permission self member feature_name.
Proof.
  intros Hcmd.
  assert (Hsec : feature_section (config self) feature_name
                 = Some ("Command_" +:+ feature_name)).
  { unfold feature_section. rewrite Hcmd. reflexivity. }
  split; [exact Hsec|]. intros body.
  unfold _check_specific_permission. rewrite Hsec.
  unfold feature_section.
  rewrite (contains_with_section self _ body _ (command_ne_feature feature_name)), Hcmd.
  unfold feature_lists, get.
  rewrite !(find_with_section self _ body _ _ (command_ne_feature feature_name)).
  reflexivity.
Qed.

Lemma command_section_shadows_feature_section_witness :
  _check_specific_permission
    (with_section test_manager "Feature_hr_tool" (Some {[ "allowedroles" := "General" ]}))
    (discord normal_user) "hr_tool"
  = _check_specific_permission test_manager (discord normal_user) "hr_tool".
Proof.
  apply (proj2 (command_section_shadows_feature_section test_manager (discord normal_user)
                  "hr_tool" eq_refl)).
Defined.

(** C9, at the input where it fails: [AllowedUsers] holds the digit
    SUPERSCRIPT TWO, which passes [isdigit] and is then refused by [int];
    [_check_specific_permission] raises [ValueError] instead of returning. *)
Theorem check_specific_permission_raises :
  isdigit superscript_two = true
  /\ _check_specific_permission superscript_manager (discord (User 1)) "hr_tool"
     = raise (ValueError [superscript_two]).
Proof. split; reflexivity. Qed.

End PermissionFacts.

Module ErrorHandlerFacts.
Import Py PyFacts Config Discord Events ErrorHandler.

#[local] Arguments isinstance : simpl never.

Lemma isinstance_app (e : exn) (l1 l2 : list string) :
  isinstance e (l1 ++ l2) = isinstance e l1 || isinstance e l2.
Proof. unfold isinstance. apply existsb_app. Qed.

(** A reply the platform accepts is the only event of the helper. *)
Lemma send_error_message_delivered (ctx : ctx_or_interaction) (message : user_message)
    (ephemeral : bool) (via : channel) :
  delivery ctx = Some via ->
  _send_error_message ctx message ephemeral = (Return tt, [Sent via message ephemeral]).
Proof.
  destruct ctx as [a [[]|e] | u [[|]|e] [[]|e1] [[]|e2] | a]; simpl;
    intros H; inversion H; reflexivity.
Qed.

(** A reply the platform refuses with an [Exception] is logged by the helper
    and goes no further: nothing is sent and nothing is raised. *)
Lemma send_error_message_refused (ctx : ctx_or_interaction) (message : user_message)
    (ephemeral : bool) (e : exn) :
  result (_send_error_message ctx message ephemeral) = Raise e ->
  isinstance e [Exception] = false.
Proof.
  unfold _send_error_message, try_except_clauses.
  destruct ctx as [a [[]|e0] | u [[|]|e0] [[]|e1] [[]|e2] | a]; simpl;
    try discriminate.
  all: match goal with
       | |- context [if isinstance ?x [Forbidden] then _ else _] =>
           destruct (isinstance x [Forbidden]) eqn:HF; [simpl; discriminate|];
           destruct (isinstance x [Exception]) eqn:HE; [simpl; discriminate|];
           simpl; intros H; inversion H; subst; exact HE
       end.
Qed.

(** Whatever the platform does, the helper sends at most one message and
    writes a log record only for a reply that was refused. *)
Lemma send_error_message_shapes (ctx : ctx_or_interaction) (message : user_message)
    (ephemeral : bool) :
  (exists via, delivery ctx = Some via
               /\ trace (_send_error_message ctx message ephemeral)
                  = [Sent via message ephemeral])
  \/ (delivery ctx = None
      /\ (trace (_send_error_message ctx message ephemeral) = []
          \/ trace (_send_error_message ctx message ephemeral)
             = [Log ERROR (Err SendForbidden None) false]
          \/ exists e,
               trace (_send_error_message ctx message ephemeral)
               = [Log ERROR (Err SendFailed (Some e)) true])).
Proof.
  destruct (delivery ctx) as [via|] eqn:Hd.
  - left. exists via. rewrite (send_error_message_delivered _ _ _ _ Hd). auto.
  - right. split; [reflexivity|].
    unfold _send_error_message, try_except_clauses.
    destruct ctx as [a [[]|e0] | u [[|]|e0] [[]|e1] [[]|e2] | a]; simpl in *;
      try discriminate.
    all: match goal with
         | |- context [if isinstance ?x [Forbidden] then _ else _] =>
             destruct (isinstance x [Forbidden]) eqn:HF;
             [right; left; reflexivity|];
             destruct (isinstance x [Exception]) eqn:HE;
             [right; right; exists x; reflexivity|left; reflexivity]
         end.
Qed.

(** The second and fourth cases of the self-test of the file. *)
Example bad_argument_case :
  let bad := Exn [BadArgument; "discord.ext.commands.UserInputError";
                  "discord.ext.commands.CommandError"; "discord.errors.DiscordException";
                  Exception; "BaseException"] ["x"] None in
  process_command_error {| config := Permission.test_config; notify_user_on_error := true |}
    (MockContext "TestUser#12345") bad
  = (Return tt, [Log WARNING (UsageError (inr "TestUser#12345") bad) false;
                 Sent by_print (WrongUsage bad) true]).
Proof. reflexivity. Qed.

(** A reply refused by the platform: the helper logs the refusal, sends
    nothing and returns. *)
Example refused_reply_is_logged :
  _send_error_message (Context test_author (Raise forbidden_error)) NoPermission true
  = (Return tt, [Log ERROR (Err SendForbidden None) false]).
Proof. reflexivity. Qed.

(** The flag of the self-test configuration. *)
Example init_reads_flag :
  __init__ Permission.test_config
  = ret {| config := Permission.test_config; notify_user_on_error := false |}.
Proof. reflexivity. Qed.






End ErrorHandlerFacts.

Module SchedulerFacts.
Import Py PyFacts Config Events Db Scheduler.

#[local] Arguments isinstance : simpl never.

(** The constructor, unlike [start], lets the failure out: it logs at
    critical level and raises the same exception again. *)
Lemma init_reraises (lib : apscheduler) (cfg : ConfigParser) (manager : DatabaseManager)
    (e : exn) :
  (forall url, new_SQLAlchemyJobStore lib url = Raise e) ->
  isinstance e [Exception] = true ->
  result (__init__ lib cfg manager) = Raise e
  /\ In (Log CRITICAL (SchedulerInitFailed e) true) (trace (__init__ lib cfg manager)).
Proof.
  intros Hlib He.
  assert (Hrun : exists t, __init__ lib cfg manager
                           = (Raise e, t ++ [Log CRITICAL (SchedulerInitFailed e) true])).
  { unfold __init__.
    destruct (_build_dsn (get cfg "Database" "Type" "sqlite")
                (get cfg "Database" "DSN" "db/bot.db")) as [[full_dsn|e0] t] eqn:Hdsn.
    - exists t. unfold bind at 1. rewrite Hlib. simpl. rewrite He, app_nil_r. reflexivity.
    - exfalso. unfold _build_dsn in Hdsn.
      repeat match type of Hdsn with
             | context [if ?b then _ else _] => destruct b
             end; discriminate. }
  destruct Hrun as [t Hrun]. rewrite Hrun. split; [reflexivity|].
  apply in_or_app. right. left. reflexivity.
Qed.

Example init_fails_on_unreachable_store :
  __init__ failing_library {| defaults := ∅; sections := ∅ |} {| dsn := "" |}
  = (Raise OperationalError, [Log CRITICAL (SchedulerInitFailed OperationalError) true]).
Proof. reflexivity. Qed.

(** What is not an [Exception] is not caught by [start]. *)
Example start_lets_interrupt_through :
  start {| config := config unreachable_scheduler;
           db_manager := db_manager unreachable_scheduler;
           scheduler := {| jobstores := {| url := "" |};
                           scheduler_start := Raise KeyboardInterrupt;
                           scheduler_shutdown := Return tt |} |}
  = raise KeyboardInterrupt.
Proof. reflexivity. Qed.

(** C4, as the code has it. When the scheduler of the library fails to start
    with any [Exception], such as the error of an unreachable job store,
    [start] catches it, writes one error record with the stack trace, and
    returns normally: nothing reaches the caller. *)
Theorem start_logs_and_returns (self : TaskScheduler) (e : exn) :
  scheduler_start (scheduler self) = Raise e ->
  isinstance e [Exception] = true ->
  start self = (Return tt, [Log ERROR (SchedulerStartFailed e) true]).
Proof.
  intros Hstart He. unfold start. rewrite Hstart. simpl. rewrite He. reflexivity.
Qed.

Lemma start_logs_and_returns_witness :
  start unreachable_scheduler
  = (Return tt, [Log ERROR (SchedulerStartFailed OperationalError) true]).
Proof.
  apply (start_logs_and_returns unreachable_scheduler OperationalError); reflexivity.
Defined.

(** C4 as stated fails: with the job store unreachable, [start] returns and
    raises nothing. *)
Lemma start_does_not_fail_fast :
  scheduler_start (scheduler unreachable_scheduler) = Raise OperationalError
  /\ result (start unreachable_scheduler) = Return tt
  /\ forall e, result (start unreachable_scheduler) <> Raise e.
Proof. split; [reflexivity|]. split; [reflexivity|]. intros e. discriminate. Qed.

End SchedulerFacts.

Module DbFacts.
Import Py PyFacts Config Events Db.

Lemma async_with_generator {A} (body : block A) (db : Database) :
  async_with async_generator body db = (raise (TypeError ["async_generator"]), db).
Proof. reflexivity. Qed.

(** C7, at the input where it fails (the calls of the self-test of the
    file): the first [set_setting] raises [TypeError] when it enters its
    [async with], so no value is ever stored or read back; [delete_setting]
    and [get_setting] raise in the same way and leave the row in place. *)
Theorem settings_calls_raise :
  and_then (set_setting test_repository 999999 "prefix" "!")
    (fun _ => and_then (set_setting test_repository 999999 "prefix" "$")
       (fun _ => get_setting test_repository 999999 "prefix")) empty_database
  = (raise (TypeError ["async_generator"]), empty_database)
  /\ and_then (delete_setting test_repository 999999 "prefix")
       (fun _ => get_setting test_repository 999999 "prefix") prefix_database
     = (raise (TypeError ["async_generator"]), prefix_database)
  /\ get_setting test_repository 999999 "prefix" prefix_database
     = (raise (TypeError ["async_generator"]), prefix_database).
Proof. repeat split. Qed.

(** C8, at the input where it fails: [set_setting] on a pair that has a row
    raises [TypeError] and leaves the row as it was; the row is not updated. *)
Theorem set_setting_existing_pair_raises :
  first_selected 999999 "prefix" prefix_database ≫= setting_value = Some "!"
  /\ set_setting test_repository 999999 "prefix" "$" prefix_database
     = (raise (TypeError ["async_generator"]), prefix_database).
Proof. split; reflexivity. Qed.

(** *** The statements inside the sessions

    What the three blocks do once a session can be entered, that is, with
    [get_session] wrapped by [contextlib.asynccontextmanager]. *)

Lemma find_map_stable {A} (p : A -> bool) (f : A -> A) (l : list A) :
  (forall x, p (f x) = p x) ->
  List.find p (map f l) = option_map f (List.find p l).
Proof.
  intros Hp. induction l as [|x l IH]; simpl; [reflexivity|].
  rewrite Hp. destruct (p x); [reflexivity|exact IH].
Qed.

Lemma find_app_none {A} (p : A -> bool) (l : list A) (x : A) :
  List.find p l = None -> p x = true -> List.find p (l ++ [x]) = Some x.
Proof.
  intros Hl Hx. induction l as [|y l IH]; simpl in *.
  - rewrite Hx. reflexivity.
  - destruct (p y); [discriminate|]. apply IH. exact Hl.
Qed.

Lemma NoDup_map_injective {A B} (f : A -> B) (l : list A) (x y : A) :
  NoDup (map f l) -> In x l -> In y l -> f x = f y -> x = y.
Proof.
  induction l as [|z l IH]; simpl; [contradiction|].
  intros Hnd Hx Hy Hf. apply NoDup_cons in Hnd. destruct Hnd as [Hz Hnd].
  rewrite list_elem_of_In in Hz.
  destruct Hx as [<-|Hx], Hy as [<-|Hy]; auto.
  - exfalso. apply Hz. rewrite Hf. apply in_map. exact Hy.
  - exfalso. apply Hz. rewrite <- Hf. apply in_map. exact Hx.
Qed.

Lemma NoDup_map_filter {A B} (f : A -> B) (p : A -> bool) (l : list A) :
  NoDup (map f l) -> NoDup (map f (List.filter p l)).
Proof.
  induction l as [|x l IH]; simpl; [auto|].
  intros Hnd. apply NoDup_cons in Hnd. destruct Hnd as [Hx Hnd].
  destruct (p x); simpl; [|auto].
  apply NoDup_cons. split; [|auto]. intros Hin. apply Hx.
  apply list_elem_of_In. apply list_elem_of_In, in_map_iff in Hin.
  destruct Hin as (y & Hy & Hiny).
  apply filter_In in Hiny. rewrite <- Hy. apply in_map. tauto.
Qed.

Lemma selected_guild_key (g : Z) (key : string) (row : GuildSetting) :
  selected g key row = true <-> guild_key row = (g, key).
Proof.
  unfold selected, guild_key. rewrite andb_true_iff, Z.eqb_eq, String.eqb_eq.
  split; [intros [-> ->]; reflexivity|intros H; inversion H; auto].
Qed.

Lemma set_setting_block_returns (g : Z) (key value : string) (db : Database) :
  fst (set_setting_block g key value db) = ret tt.
Proof. unfold set_setting_block. destruct (first_selected g key db); reflexivity. Qed.

Lemma set_setting_block_reads_back (g : Z) (key value : string) (db : Database) :
  first_selected g key (snd (set_setting_block g key value db)) ≫= setting_value
  = Some value.
Proof.
  unfold set_setting_block, first_selected.
  destruct (List.find (selected g key) (guild_settings db)) as [existing|] eqn:Hfind; simpl.
  - rewrite find_map_stable, Hfind; simpl.
    + rewrite Z.eqb_refl. reflexivity.
    + intros row. destruct (id row =? id existing); reflexivity.
  - rewrite (find_app_none _ _ _ Hfind); [reflexivity|].
    apply selected_guild_key. reflexivity.
Qed.

Lemma set_setting_block_consistent (g : Z) (key value : string) (db : Database) :
  consistent db -> consistent (snd (set_setting_block g key value db)).
Proof.
  intros (Hid & Hkey & Hnext). unfold set_setting_block, first_selected.
  destruct (List.find (selected g key) (guild_settings db)) as [existing|] eqn:Hfind;
    unfold consistent; simpl.
  - set (upd := fun row => if id row =? id existing then with_value row value else row).
    assert (Hi : map id (map upd (guild_settings db)) = map id (guild_settings db)).
    { rewrite map_map. apply map_ext. intros row. unfold upd.
      destruct (id row =? id existing); reflexivity. }
    assert (Hk : map guild_key (map upd (guild_settings db)) = map guild_key (guild_settings db)).
    { rewrite map_map. apply map_ext. intros row. unfold upd.
      destruct (id row =? id existing); reflexivity. }
    rewrite Hi, Hk. repeat split; auto.
    apply List.Forall_forall. intros row Hin. apply in_map_iff in Hin.
    destruct Hin as (row0 & <- & Hin0).
    rewrite List.Forall_forall in Hnext. specialize (Hnext _ Hin0). unfold upd.
    destruct (id row0 =? id existing); exact Hnext.
  - rewrite !map_app; simpl. repeat split.
    + apply NoDup_app. repeat split; auto.
      * intros i Hi Hi'. apply list_elem_of_singleton in Hi'. subst i.
        apply list_elem_of_In, in_map_iff in Hi. destruct Hi as (row & Hrow & Hin).
        rewrite List.Forall_forall in Hnext. specialize (Hnext _ Hin). lia.
      * apply NoDup_singleton.
    + apply NoDup_app. repeat split; auto.
      * intros k Hk Hk'. apply list_elem_of_singleton in Hk'. subst k.
        apply list_elem_of_In, in_map_iff in Hk. destruct Hk as (row & Hrow & Hin).
        change (guild_key row = (g, key)) in Hrow. apply selected_guild_key in Hrow.
        pose proof (List.find_none _ _ Hfind _ Hin) as Hno. simpl in Hno. congruence.
      * apply NoDup_singleton.
    + apply List.Forall_app. split.
      * eapply List.Forall_impl; [|exact Hnext]. simpl. intros; lia.
      * constructor; [simpl; lia|constructor].
Qed.

(** With a row for the pair, [set_setting_block] rewrites that row: no row is
    added. *)
Lemma set_setting_block_updates_in_place (g : Z) (key value : string) (db : Database)
    (existing : GuildSetting) :
  first_selected g key db = Some existing ->
  length (guild_settings (snd (set_setting_block g key value db)))
  = length (guild_settings db)
  /\ map id (guild_settings (snd (set_setting_block g key value db)))
     = map id (guild_settings db).
Proof.
  intros Hfind. unfold set_setting_block. rewrite Hfind; simpl.
  split; [apply length_map|].
  rewrite map_map. apply map_ext. intros row.
  destruct (id row =? id existing); reflexivity.
Qed.

Lemma delete_setting_block_consistent (g : Z) (key : string) (db : Database) :
  consistent db -> consistent (snd (delete_setting_block g key db)).
Proof.
  intros (Hid & Hkey & Hnext). unfold delete_setting_block.
  destruct (first_selected g key db) as [row|]; [|repeat split; assumption].
  unfold consistent; simpl.
  pose proof (@NoDup_map_filter GuildSetting) as Hsub.
  repeat split; auto.
  apply List.Forall_forall. intros x Hx. apply filter_In in Hx.
  rewrite List.Forall_forall in Hnext. apply Hnext. tauto.
Qed.

Lemma delete_setting_block_removes (g : Z) (key : string) (db : Database) :
  consistent db ->
  first_selected g key (snd (delete_setting_block g key db)) = None.
Proof.
  intros (Hid & Hkey & Hnext). unfold delete_setting_block, first_selected.
  destruct (List.find (selected g key) (guild_settings db)) as [row|] eqn:Hfind; simpl;
    [|exact Hfind].
  destruct (List.find (selected g key)
              (List.filter (fun row0 => negb (id row0 =? id row)) (guild_settings db)))
    as [other|] eqn:Hother; [|reflexivity].
  exfalso. apply List.find_some in Hother. destruct Hother as [Hin Hsel].
  apply filter_In in Hin. destruct Hin as [Hin Hne].
  apply List.find_some in Hfind. destruct Hfind as [Hrow Hrowsel].
  apply selected_guild_key in Hsel. apply selected_guild_key in Hrowsel.
  assert (other = row).
  { apply (NoDup_map_injective guild_key (guild_settings db)); auto. congruence. }
  subst other. rewrite Z.eqb_refl in Hne. discriminate.
Qed.

Lemma session_scope_commits {A} (body : block A) (db pending : Database) (a : A)
    (t : list event) :
  body db = ((Return a, t), pending) ->
  consistent pending ->
  session_scope body db = ((Return a, t), pending).
Proof.
  intros Hbody (Hid & Hkey & _). unfold session_scope. rewrite Hbody.
  rewrite bool_decide_eq_true_2 by (split; assumption). reflexivity.
Qed.

(** Under a context manager the claims C7 and C8 hold of these statements:
    from consistent rows, two writes of a pair and a read give the second
    value, a delete and a read give nothing, and the rows stay consistent. *)
Lemma managed_session_upsert_and_delete (manager : DatabaseManager) (g : Z)
    (key v1 v2 : string) (db : Database) :
  consistent db ->
  let session := asynccontextmanager get_session manager in
  exists db1 db2 db3,
    async_with session (set_setting_block g key v1) db = (ret tt, db1)
    /\ async_with session (set_setting_block g key v2) db1 = (ret tt, db2)
    /\ async_with session (get_setting_block g key) db2 = (ret (Some v2), db2)
    /\ async_with session (delete_setting_block g key) db2 = (ret true, db3)
    /\ async_with session (get_setting_block g key) db3 = (ret None, db3)
    /\ length (guild_settings db2) = length (guild_settings db1)
    /\ consistent db1 /\ consistent db2 /\ consistent db3.
Proof.
  intros Hdb session. unfold session, asynccontextmanager, async_with.
  pose proof (set_setting_block_consistent g key v1 db Hdb) as H1.
  pose proof (set_setting_block_reads_back g key v1 db) as R1.
  set (db1 := snd (set_setting_block g key v1 db)) in *.
  pose proof (set_setting_block_consistent g key v2 db1 H1) as H2.
  pose proof (set_setting_block_reads_back g key v2 db1) as R2.
  set (db2 := snd (set_setting_block g key v2 db1)) in *.
  pose proof (delete_setting_block_consistent g key db2 H2) as H3.
  pose proof (delete_setting_block_removes g key db2 H2) as R3.
  set (db3 := snd (delete_setting_block g key db2)) in *.
  exists db1, db2, db3.
  assert (E1 : set_setting_block g key v1 db = (ret tt, db1)).
  { rewrite <- (set_setting_block_returns g key v1 db). apply surjective_pairing. }
  assert (E2 : set_setting_block g key v2 db1 = (ret tt, db2)).
  { rewrite <- (set_setting_block_returns g key v2 db1). apply surjective_pairing. }
  assert (G2 : get_setting_block g key db2 = (ret (Some v2), db2)).
  { unfold get_setting_block. rewrite R2. reflexivity. }
  assert (G3 : get_setting_block g key db3 = (ret None, db3)).
  { unfold get_setting_block. rewrite R3. reflexivity. }
  destruct (first_selected g key db1) as [row1|] eqn:F1; [|discriminate].
  destruct (first_selected g key db2) as [row2|] eqn:F2; [|discriminate].
  assert (E3 : delete_setting_block g key db2 = (ret true, db3)).
  { unfold db3, delete_setting_block. rewrite F2. reflexivity. }
  split; [apply session_scope_commits; assumption|].
  split; [apply session_scope_commits; assumption|].
  split; [apply session_scope_commits; assumption|].
  split; [apply session_scope_commits; assumption|].
  split; [apply session_scope_commits; assumption|].
  split; [apply (set_setting_block_updates_in_place g key v2 db1 row1 F1)|].
  split; [exact H1|]. split; [exact H2|exact H3].
Qed.

End DbFacts.

(** ** More about the strings of configuration values *)
Module StringFacts.
Import Py Text.

Lemma chars_lstrip (s : string) : chars (lstrip s) = drop_spaces (chars s).
Proof.
  induction s as [|c s IH]; simpl; [reflexivity|].
  destruct (isspace_char c); [exact IH|reflexivity].
Qed.

Lemma chars_reverse (s : string) : chars (reverse s) = rev (chars s).
Proof. unfold reverse. apply list_ascii_of_string_of_list_ascii. Qed.

Lemma chars_strip (s : string) :
  chars (strip s) = rev (drop_spaces (rev (drop_spaces (chars s)))).
Proof.
  unfold strip, rstrip. rewrite chars_reverse, chars_lstrip, chars_reverse, chars_lstrip.
  reflexivity.
Qed.

Lemma chars_inj (s t : string) : chars s = chars t -> s = t.
Proof.
  intros H. rewrite <- (string_of_list_ascii_of_string s), <- (string_of_list_ascii_of_string t), H.
  reflexivity.
Qed.

Lemma drop_spaces_starts_clean (l : list ascii) : starts_clean (drop_spaces l).
Proof.
  induction l as [|c l IH]; simpl; [exact I|].
  destruct (isspace_char c) eqn:Hc; [exact IH|exact Hc].
Qed.

Lemma drop_spaces_fixed (l : list ascii) : starts_clean l -> drop_spaces l = l.
Proof. destruct l as [|c l]; simpl; [reflexivity|]. intros ->. reflexivity. Qed.

Lemma drop_spaces_snoc (l : list ascii) (c : ascii) :
  isspace_char c = false -> drop_spaces (l ++ [c]) = drop_spaces l ++ [c].
Proof.
  intros Hc. induction l as [|d l IH]; simpl.
  - rewrite Hc. reflexivity.
  - destruct (isspace_char d); [exact IH|reflexivity].
Qed.

Lemma trimmed_end_starts_clean (l : list ascii) :
  starts_clean l -> starts_clean (rev (drop_spaces (rev l))).
Proof.
  destruct l as [|c l]; simpl; [intros _; exact I|].
  intros Hc. rewrite (drop_spaces_snoc _ _ Hc), rev_app_distr. simpl. exact Hc.
Qed.

Lemma drop_spaces_incl (c : ascii) (l : list ascii) : In c (drop_spaces l) -> In c l.
Proof.
  induction l as [|d l IH]; simpl; [auto|].
  destruct (isspace_char d); [intros H; right; exact (IH H)|auto].
Qed.

Lemma strip_incl (c : ascii) (s : string) : In c (chars (strip s)) -> In c (chars s).
Proof.
  rewrite chars_strip. intros H.
  apply in_rev, drop_spaces_incl, in_rev, drop_spaces_incl in H. exact H.
Qed.

Lemma strip_idempotent (s : string) : strip (strip s) = strip s.
Proof.
  apply chars_inj. rewrite (chars_strip (strip s)), (chars_strip s).
  set (m := drop_spaces (chars s)).
  assert (Hm : starts_clean m) by apply drop_spaces_starts_clean.
  rewrite (drop_spaces_fixed _ (trimmed_end_starts_clean m Hm)), rev_involutive.
  rewrite (drop_spaces_fixed _ (drop_spaces_starts_clean (rev m))). reflexivity.
Qed.

Lemma split_nonempty (sep : ascii) (s : string) : split sep s <> [].
Proof.
  induction s as [|c s IH]; simpl; [discriminate|].
  destruct (Ascii.eqb c sep); [discriminate|].
  destruct (split sep s); discriminate.
Qed.

Lemma split_pieces_lack_separator (sep : ascii) (s piece : string) :
  In piece (split sep s) -> ~ In sep (chars piece).
Proof.
  revert piece. induction s as [|c s IH]; simpl; intros piece.
  - intros [<-|[]]. simpl. tauto.
  - destruct (Ascii.eqb c sep) eqn:Hc.
    + intros [<-|H]; [simpl; tauto|exact (IH _ H)].
    + destruct (split sep s) as [|w ws] eqn:Hs; [exfalso; exact (split_nonempty _ _ Hs)|].
      intros [<-|H]; [|apply IH; right; exact H].
      simpl. intros [Heq|Hin].
      * subst c. rewrite Ascii.eqb_refl in Hc. discriminate.
      * exact (IH w (or_introl eq_refl) Hin).
Qed.

Lemma split_joined (sep : ascii) (a b : string) :
  split sep (a +:+ String sep b) = split sep a ++ split sep b.
Proof.
  induction a as [|c a IH]; simpl.
  - rewrite Ascii.eqb_refl. reflexivity.
  - destruct (Ascii.eqb c sep); [rewrite IH; reflexivity|].
    rewrite IH. destruct (split sep a) as [|w ws] eqn:Hs;
      [exfalso; exact (split_nonempty _ _ Hs)|reflexivity].
Qed.






End StringFacts.

(** ** More about utils/permission_handler.py *)
Module PermissionExtras.
Import Py PyFacts Text StringFacts Config Discord Events Permission PermissionFacts.

#[local] Arguments isinstance : simpl never.

Lemma parse_list_unfold (config_str : string) :
  _parse_list_from_ini config_str
  = map strip (List.filter (fun item => truthy (strip item)) (split "," config_str)).
Proof. destruct config_str; reflexivity. Qed.

(** X1. Every item [_parse_list_from_ini] returns is non-empty, has no white
    space at either end (stripping it again changes nothing) and contains no
    comma. *)
Theorem parsed_items_are_clean (config_str item : string) :
  In item (_parse_list_from_ini config_str) ->
  item <> "" /\ strip item = item /\ ~ In ","%char (chars item).
Proof.
  rewrite parse_list_unfold. intros Hin.
  apply in_map_iff in Hin. destruct Hin as (piece & <- & Hpiece).
  apply filter_In in Hpiece. destruct Hpiece as [Hsplit Htruthy].
  split; [|split].
  - intros Hempty. rewrite Hempty in Htruthy. discriminate.
  - apply strip_idempotent.
  - intros Hcomma. apply strip_incl in Hcomma.
    exact (split_pieces_lack_separator _ _ _ Hsplit Hcomma).
Qed.

Lemma parsed_items_are_clean_witness :
  "Staff" <> "" /\ strip "Staff" = "Staff" /\ ~ In ","%char (chars "Staff").
Proof.
  apply (parsed_items_are_clean " BotAdmin ,, Staff  " "Staff").
  simpl. right. left. reflexivity.
Defined.

(** X2. Parsing two lists joined by a comma gives the items of the first
    followed by the items of the second. *)
Theorem parse_list_joined (a b : string) :
  _parse_list_from_ini (a +:+ "," +:+ b)
  = _parse_list_from_ini a ++ _parse_list_from_ini b.
Proof.
  change ("," +:+ b) with (String ","%char b).
  rewrite !parse_list_unfold, split_joined, List.filter_app, map_app. reflexivity.
Qed.



(** X4. For a context that has a caller, neither check ever returns [False]:
    it returns [True] or raises. [admin_only] raises only [CheckFailure];
    [requires_permission] raises [CheckFailure] naming the feature, or the
    error met while reading the lists of the feature's section. *)
Theorem checks_pass_or_raise (self : PermissionManager) (feature_name : string)
    (ctx : ctx_or_interaction) (c : caller) :
  _get_ctx_or_interaction_member ctx = Some c ->
  result (admin_only self ctx) <> Return false
  /\ result (requires_permission self feature_name ctx) <> Return false
  /\ (forall e, result (admin_only self ctx) = Raise e -> e = new_CheckFailure [])
  /\ (forall e, result (requires_permission self feature_name ctx) = Raise e ->
        e = new_CheckFailure [feature_name]
        \/ exists section_name,
             feature_section (config self) feature_name = Some section_name
             /\ feature_lists (config self) section_name = Raise e).
Proof.
  intros Hc. unfold admin_only, requires_permission. rewrite Hc.
  destruct (is_bot_admin_total self (discord c)) as [admin Hadmin].
  rewrite Hadmin, !bind_ret_l.
  destruct admin.
  { simpl. repeat split; try discriminate. }
  split; [discriminate|]. unfold _check_specific_permission.
  destruct (feature_section (config self) feature_name) as [section_name|] eqn:Hsec.
  2:{ simpl. repeat split; try discriminate.
      - intros e H. inversion H. reflexivity.
      - intros e H. inversion H. left. reflexivity. }
  destruct (feature_lists (config self) section_name) as [[roles users]|e0] eqn:Hlists.
  2:{ simpl. repeat split; try discriminate.
      - intros e H. inversion H. reflexivity.
      - intros e H. inversion H; subst. right. exists section_name.
        split; [reflexivity|exact Hlists]. }
  change (lift (Return (roles, users))) with (@ret event _ (roles, users)).
  rewrite bind_ret_l.
  assert (Hdone : forall b : bool,
            let p := (let! allowed := @ret event _ b in
                      if allowed then ret true
                      else @raise event bool (new_CheckFailure [feature_name])) in
            result p <> Return false
            /\ forall e, result p = Raise e -> e = new_CheckFailure [feature_name]).
  { intros [|]; simpl; split; try discriminate.
    intros e H. inversion H. reflexivity. }
  assert (Hadm : forall e, result (@raise event bool (new_CheckFailure [])) = Raise e ->
                           e = new_CheckFailure []).
  { intros e H. inversion H. reflexivity. }
  destruct (bool_decide (object_id (discord c) ∈ users)).
  { destruct (Hdone true) as [H1 H2]. repeat split; auto. }
  destruct c as [member_id roles0 guild|uid].
  - destruct (negb (isdisjoint (role_names roles0) roles));
      [destruct (Hdone true) as [H1 H2]|destruct (Hdone false) as [H1 H2]];
      repeat split; auto.
  - destruct (Hdone false) as [H1 H2]. repeat split; auto.
Qed.

Lemma checks_pass_or_raise_witness :
  result (admin_only test_manager (Context normal_user (Return tt))) <> Return false
  /\ result (requires_permission test_manager "hr_tool" (Context normal_user (Return tt)))
     <> Return false.
Proof.
  pose proof (checks_pass_or_raise test_manager "hr_tool"
                (Context normal_user (Return tt)) normal_user eq_refl) as H.
  split; [exact (proj1 H)|exact (proj1 (proj2 H))].
Defined.

Lemma overlap_grows (s s' : gset string) (l : list string) :
  s ⊆ s' -> negb (isdisjoint s l) = true -> negb (isdisjoint s' l) = true.
Proof. rewrite !overlap_iff. set_solver. Qed.

(** X5. Access depends on the roles only through the set of their names, and
    grows with it: a member whose role names include those of another member
    with the same id and guild is an admin, and is admitted to a feature,
    whenever the other one is. *)
Theorem more_roles_keep_access (self : PermissionManager) (member_id : Z)
    (roles roles' : list Role) (guild : Guild) (feature_name : string) :
  role_names roles ⊆ role_names roles' ->
  (is_bot_admin self (discord (Member member_id roles guild)) = ret true ->
   is_bot_admin self (discord (Member member_id roles' guild)) = ret true)
  /\ (_check_specific_permission self (discord (Member member_id roles guild)) feature_name
      = ret true ->
      _check_specific_permission self (discord (Member member_id roles' guild)) feature_name
      = ret true).
Proof.
  intros Hsub. split.
  - unfold is_bot_admin. simpl id.
    destruct (bool_decide (member_id ∈ admin_user_ids self)); [auto|].
    destruct (bool_decide (owner_id guild = Some member_id)); [auto|].
    destruct (negb (isdisjoint (role_names roles) (admin_role_names self))) eqn:Hr;
      [|discriminate].
    rewrite (overlap_grows _ _ _ Hsub Hr). auto.
  - unfold _check_specific_permission.
    destruct (feature_section (config self) feature_name) as [section_name|]; [|auto].
    destruct (feature_lists (config self) section_name) as [[allowed_roles users]|e];
      [|auto].
    change (lift (Return (allowed_roles, users)))
      with (@ret event _ (allowed_roles, users)).
    rewrite !bind_ret_l. simpl object_id.
    destruct (bool_decide (member_id ∈ users)); [auto|].
    destruct (negb (isdisjoint (role_names roles) allowed_roles)) eqn:Hr; [|discriminate].
    rewrite (overlap_grows _ _ _ Hsub Hr). auto.
Qed.

Lemma more_roles_keep_access_witness :
  _check_specific_permission test_manager
    (discord (Member 200002 [{| name := "General" |}; {| name := "HR" |}; {| name := "HR" |}]
                test_guild)) "hr_tool"
  = ret true.
Proof.
  assert (Hsub : role_names [{| name := "HR" |}]
                 ⊆ role_names [{| name := "General" |}; {| name := "HR" |}; {| name := "HR" |}]).
  { unfold role_names. simpl. set_solver. }
  apply (proj2 (more_roles_keep_access test_manager 200002 [{| name := "HR" |}]
                  [{| name := "General" |}; {| name := "HR" |}; {| name := "HR" |}]
                  test_guild "hr_tool" Hsub)).
  reflexivity.
Defined.

End PermissionExtras.

(** ** More about utils/error_handler.py *)
Module ErrorHandlerExtras.
Import Py PyFacts Config Discord Events Traces ErrorHandler ErrorHandlerFacts.

#[local] Arguments isinstance : simpl never.

Ltac split_tests :=
  repeat match goal with
         | |- context [if isinstance ?x ?c then _ else _] =>
             let H := fresh "Htest" in destruct (isinstance x c) eqn:H
         end.

Ltac split_context ctx :=
  destruct ctx as [? [[]|?] | ? [[|]|?] [[]|?] [[]|?] | ?].

(** X6. Whatever the error, the context and the answers of the platform,
    handling an error sends at most one reply and writes at most two log
    records. *)
Theorem at_most_one_reply (self : ErrorHandler) (ctx : ctx_or_interaction) (error : exn) :
  (length (replies (trace (process_command_error self ctx error))) <= 1)%nat
  /\ (length (records (trace (process_command_error self ctx error))) <= 2)%nat.
Proof.
  unfold process_command_error, _send_error_message, try_except_clauses.
  destruct (notify_user_on_error self);
    split_context ctx; simpl; split_tests; simpl; split_tests; simpl; lia.
Qed.

(** X7. An error that carries an [original] is handled exactly as that
    original would be: the class and the arguments of the wrapper play no
    part. *)
Theorem wrapper_is_transparent (self : ErrorHandler) (ctx : ctx_or_interaction)
    (wrapper_mro wrapper_args : list string) (original : exn) :
  exn_original original = None ->
  process_command_error self ctx (Exn wrapper_mro wrapper_args (Some original))
  = process_command_error self ctx original.
Proof.
  intros Hnone. unfold process_command_error, getattr_original. simpl exn_original.
  rewrite Hnone. reflexivity.
Qed.

Lemma wrapper_is_transparent_witness :
  process_command_error {| config := Permission.test_config; notify_user_on_error := false |}
    (Context test_author (Return tt))
    (Exn [CommandNotFound; Exception; "BaseException"] [] (Some zero_division))
  = (Return tt, [Log ERROR (Err Unexpected (Some zero_division)) true]).
Proof.
  rewrite (wrapper_is_transparent _ _ [CommandNotFound; Exception; "BaseException"] []
             zero_division eq_refl).
  reflexivity.
Defined.

(** X8. Handling an error lets an exception out in two cases only: a call
    into the platform raised something that is not an [Exception], or the
    error is a usage error and the context is an interaction, which has no
    [author]: then [AttributeError] escapes before anything is logged or
    sent. *)
Theorem handler_raises_only (self : ErrorHandler) (ctx : ctx_or_interaction)
    (error e : exn) :
  result (process_command_error self ctx error) = Raise e ->
  isinstance e [Exception] = false
  \/ ((exists user sent followup response, ctx = Interaction user sent followup response)
      /\ isinstance (getattr_original error) [MissingRequiredArgument; BadArgument] = true
      /\ process_command_error self ctx error = raise (AttributeError ["author"])).
Proof.
  unfold process_command_error.
  destruct (isinstance (getattr_original error) [CommandNotFound; app_CommandNotFound]);
    [discriminate|].
  assert (Hsend : forall (prefix : prog event unit) message,
            (exists ev, prefix = emit ev) ->
            result (do! prefix in _send_error_message ctx message true) = Raise e ->
            isinstance e [Exception] = false).
  { intros prefix message [ev ->] H.
    apply (send_error_message_refused ctx message true).
    rewrite bind_emit_l in H. exact H. }
  assert (Hsend0 : forall message,
            result (_send_error_message ctx message true) = Raise e ->
            isinstance e [Exception] = false).
  { intros message. apply send_error_message_refused. }
  destruct (isinstance (getattr_original error) [CheckFailure; app_CheckFailure]);
    [intros H; left; exact (Hsend0 _ H)|].
  destruct (isinstance (getattr_original error) [MissingRequiredArgument; BadArgument]).
  { destruct ctx as [a r | u s f r | a]; simpl author_of.
    - change (lift (Return (inl a))) with (@ret event _ (@inl caller string a)).
      rewrite bind_ret_l. intros H. left. eapply Hsend; [eexists; reflexivity|exact H].
    - intros _. right. split; [eauto|]. split; reflexivity.
    - change (lift (Return (inr a))) with (@ret event _ (@inr caller string a)).
      rewrite bind_ret_l. intros H. left. eapply Hsend; [eexists; reflexivity|exact H]. }
  destruct (isinstance (getattr_original error) [RateLimited]); [discriminate|].
  destruct (isinstance (getattr_original error) [Forbidden]).
  { intros H. left. eapply Hsend; [eexists; reflexivity|exact H]. }
  destruct (isinstance (getattr_original error) [ExternalAPIError]).
  { intros H. left. eapply Hsend; [eexists; reflexivity|exact H]. }
  destruct (notify_user_on_error self); [|discriminate].
  intros H. left. eapply Hsend; [eexists; reflexivity|exact H].
Qed.

Lemma handler_raises_only_witness :
  process_command_error {| config := Permission.test_config; notify_user_on_error := false |}
    (Interaction test_author (Return false) (Return tt) (Return tt))
    (Exn [BadArgument; Exception; "BaseException"] ["x"] None)
  = raise (AttributeError ["author"]).
Proof.
  destruct (handler_raises_only
              {| config := Permission.test_config; notify_user_on_error := false |}
              (Interaction test_author (Return false) (Return tt) (Return tt))
              (Exn [BadArgument; Exception; "BaseException"] ["x"] None)
              (AttributeError ["author"]) eq_refl) as [H|(_ & _ & H)].
  - discriminate H.
  - exact H.
Defined.


Lemma earlier_rules_true (e : exn) :
  isinstance e [CommandNotFound; app_CommandNotFound] = false ->
  isinstance e [CheckFailure; app_CheckFailure] = false ->
  isinstance e [MissingRequiredArgument; BadArgument] = false ->
  isinstance e [RateLimited] = false ->
  isinstance e [Forbidden] = false ->
  isinstance e [ExternalAPIError] = false ->
  isinstance e earlier_rules = false.
Proof.
  intros H1 H2 H3 H4 H5 H6.
  change earlier_rules with
    ([CommandNotFound; app_CommandNotFound] ++ [CheckFailure; app_CheckFailure]
     ++ [MissingRequiredArgument; BadArgument] ++ [RateLimited] ++ [Forbidden]
     ++ [ExternalAPIError]).
  rewrite !isinstance_app, H1, H2, H3, H4, H5, H6. reflexivity.
Qed.

(** X10. For an error that matches one of the six earlier rules no stack
    trace is logged on account of the error itself: the only record with
    [exc_info=True] such a run can contain is the one the reply helper writes
    when sending the reply failed. *)
Theorem classified_errors_log_no_stack (self : ErrorHandler) (ctx : ctx_or_interaction)
    (error : exn) (lvl : level) (text : log_text) :
  isinstance (getattr_original error) earlier_rules = true ->
  In (Log lvl text true) (trace (process_command_error self ctx error)) ->
  exists e, lvl = ERROR /\ text = Err SendFailed (Some e).
Proof.
  intros Hrules. unfold process_command_error.
  destruct (isinstance (getattr_original error) [CommandNotFound; app_CommandNotFound]) eqn:H1;
    [simpl; tauto|].
  destruct (isinstance (getattr_original error) [CheckFailure; app_CheckFailure]) eqn:H2.
  2: destruct (isinstance (getattr_original error) [MissingRequiredArgument; BadArgument])
       eqn:H3.
  3: destruct (isinstance (getattr_original error) [RateLimited]) eqn:H4.
  4: destruct (isinstance (getattr_original error) [Forbidden]) eqn:H5.
  5: destruct (isinstance (getattr_original error) [ExternalAPIError]) eqn:H6.
  6:{ rewrite (earlier_rules_true _ H1 H2 H3 H4 H5 H6) in Hrules. discriminate. }
  all: unfold _send_error_message, try_except_clauses;
    split_context ctx; simpl; split_tests; simpl;
    intuition (try discriminate);
    match goal with
    | H : Log _ _ _ = Log _ _ true |- _ => inversion H; subst; eauto
    end.
Qed.

Lemma classified_errors_log_no_stack_witness :
  exists e, ERROR = ERROR /\ Err SendFailed (Some (ValueError [])) = Err SendFailed (Some e).
Proof.
  apply (classified_errors_log_no_stack
           {| config := Permission.test_config; notify_user_on_error := false |}
           (Context test_author (Raise (ValueError [])))
           (new_CheckFailure []) ERROR (Err SendFailed (Some (ValueError [])))).
  - reflexivity.
  - simpl. left. reflexivity.
Defined.

End ErrorHandlerExtras.

(** ** More about utils/task_scheduler.py *)
Module SchedulerExtras.
Import Py PyFacts Config Events Db Scheduler Tasks.

#[local] Arguments isinstance : simpl never.

Lemma guarded_call {E} (call : outcome unit) (done : E) (failed : exn -> E) :
  let p := try_except (do! lift call in emit done) [Exception] (fun e => emit (failed e)) in
  (forall e, result p = Raise e -> isinstance e [Exception] = false /\ trace p = [])
  /\ (result p = Return tt -> length (trace p) = 1%nat).
Proof.
  destruct call as [[]|e0]; simpl.
  - split; [discriminate|reflexivity].
  - destruct (isinstance e0 [Exception]) eqn:He; simpl.
    + split; [discriminate|reflexivity].
    + split; [|discriminate]. intros e H. inversion H; subst. auto.
Qed.

(** X11. Neither [start] nor [shutdown] lets an [Exception] of the library
    out: each returns after writing exactly one log record, or raises
    something that is not an [Exception] and writes nothing. *)
Theorem lifecycle_contains_exceptions (self : TaskScheduler) :
  (forall e, result (start self) = Raise e ->
             isinstance e [Exception] = false /\ trace (start self) = [])
  /\ (result (start self) = Return tt -> length (trace (start self)) = 1%nat)
  /\ (forall e, result (shutdown self) = Raise e ->
                isinstance e [Exception] = false /\ trace (shutdown self) = [])
  /\ (result (shutdown self) = Return tt -> length (trace (shutdown self)) = 1%nat).
Proof.
  pose proof (guarded_call (scheduler_start (scheduler self))
                (Log INFO SchedulerStarted false)
                (fun e => Log ERROR (SchedulerStartFailed e) true)) as [H1 H2].
  pose proof (guarded_call (scheduler_shutdown (scheduler self))
                (Log INFO SchedulerStopped false)
                (fun e => Log ERROR (SchedulerStopFailed e) true)) as [H3 H4].
  split; [exact H1|]. split; [exact H2|]. split; [exact H3|exact H4].
Qed.

Lemma lifecycle_contains_exceptions_witness :
  length (trace (start unreachable_scheduler)) = 1%nat.
Proof.
  apply (proj1 (proj2 (lifecycle_contains_exceptions unreachable_scheduler))). reflexivity.
Defined.

(** X12. The constructor either returns a scheduler that the library built
    on a job store opened with the DSN [_build_dsn] gives for the [Database]
    section, or raises; when it raises an [Exception], a critical record with
    the stack trace is the last thing it logs. *)
Theorem init_outcomes (lib : apscheduler) (cfg : ConfigParser) (manager : DatabaseManager) :
  (forall self, result (__init__ lib cfg manager) = Return self ->
     config self = cfg /\ db_manager self = manager
     /\ exists full_dsn store,
          result (_build_dsn (get cfg "Database" "Type" "sqlite")
                             (get cfg "Database" "DSN" "db/bot.db")) = Return full_dsn
          /\ new_SQLAlchemyJobStore lib full_dsn = Return store
          /\ new_AsyncIOScheduler lib store = Return (scheduler self))
  /\ (forall e, result (__init__ lib cfg manager) = Raise e ->
        isinstance e [Exception] = true ->
        exists t, trace (__init__ lib cfg manager)
                  = t ++ [Log CRITICAL (SchedulerInitFailed e) true]).
Proof.
  unfold __init__.
  destruct (_build_dsn (get cfg "Database" "Type" "sqlite")
              (get cfg "Database" "DSN" "db/bot.db")) as [[full_dsn|e0] t0] eqn:Hdsn.
  2:{ exfalso. unfold _build_dsn in Hdsn.
      repeat match type of Hdsn with
             | context [if ?b then _ else _] => destruct b
             end; discriminate. }
  unfold bind, lift.
  destruct (new_SQLAlchemyJobStore lib full_dsn) as [store|e1] eqn:Hstore; simpl.
  - destruct (new_AsyncIOScheduler lib store) as [sched|e2] eqn:Hsched; simpl.
    + split; [|intros e H; discriminate]. intros self H. inversion H; subst. simpl.
      repeat split. exists full_dsn, store. auto.
    + destruct (isinstance e2 [Exception]) eqn:He; simpl.
      * split; [intros self H; discriminate|]. intros e H _. inversion H; subst.
        exists t0. rewrite app_nil_r. reflexivity.
      * split; [intros self H; discriminate|]. intros e H He'. inversion H; subst. congruence.
  - destruct (isinstance e1 [Exception]) eqn:He; simpl.
    + split; [intros self H; discriminate|]. intros e H _. inversion H; subst.
      exists t0. rewrite app_nil_r. reflexivity.
    + split; [intros self H; discriminate|]. intros e H He'. inversion H; subst. congruence.
Qed.

Lemma init_outcomes_witness :
  exists t, trace (__init__ failing_library {| defaults := ∅; sections := ∅ |} {| dsn := "" |})
            = t ++ [Log CRITICAL (SchedulerInitFailed OperationalError) true].
Proof.
  apply (proj2 (init_outcomes failing_library {| defaults := ∅; sections := ∅ |}
                  {| dsn := "" |}) OperationalError); reflexivity.
Defined.

Lemma trigger_constructor_known (lib : job_library) (trigger : string) :
  trigger ∉ ["cron"; "interval"; "date"] -> trigger_constructor lib trigger = None.
Proof.
  intros Hno. unfold trigger_constructor.
  destruct (String.eqb_spec trigger "cron") as [->|_]; [exfalso; apply Hno; set_solver|].
  destruct (String.eqb_spec trigger "interval") as [->|_]; [exfalso; apply Hno; set_solver|].
  destruct (String.eqb_spec trigger "date") as [->|_]; [exfalso; apply Hno; set_solver|].
  reflexivity.
Qed.

(** X13. With a trigger name other than [cron], [interval] and [date]
    (compared exactly), [add_task] writes one error record and returns: the
    job table is left as it was, whatever the library would have done. *)
Theorem add_task_unknown_trigger (lib : job_library) (func trigger task_id : string)
    (trigger_args : kwargs) (jobs : job_table) :
  trigger ∉ ["cron"; "interval"; "date"] ->
  add_task lib func trigger task_id trigger_args jobs
  = ((Return tt, [TaskLog ERROR (UnknownTrigger trigger) false]), jobs).
Proof.
  intros Hno. unfold add_task. rewrite (trigger_constructor_known lib trigger Hno).
  reflexivity.
Qed.

Lemma add_task_unknown_trigger_witness :
  add_task documented_library "example_cron_task" "Cron" "daily" [("hour", "9")] ∅
  = ((Return tt, [TaskLog ERROR (UnknownTrigger "Cron") false]), ∅).
Proof.
  apply add_task_unknown_trigger. set_solver.
Defined.

(** X14. The two failures of [add_task] are treated differently. An exception
    of the trigger constructor (bad trigger arguments) leaves [add_task]
    uncaught, with nothing logged and the table untouched; an [Exception] of
    [add_job] is caught: one error record with the stack trace, and
    [add_task] returns normally. *)
Theorem add_task_failures (lib : job_library) (func trigger task_id : string)
    (trigger_args : kwargs) (jobs : job_table)
    (new_trigger : kwargs -> outcome trigger_instance) :
  trigger_constructor lib trigger = Some new_trigger ->
  (forall e, new_trigger trigger_args = Raise e ->
     add_task lib func trigger task_id trigger_args jobs = (raise e, jobs))
  /\ (forall made e jobs',
        new_trigger trigger_args = Return made ->
        add_job lib (registered func made task_id) true jobs = (Raise e, jobs') ->
        isinstance e [Exception] = true ->
        add_task lib func trigger task_id trigger_args jobs
        = ((Return tt, [TaskLog ERROR (TaskAddFailed task_id e) true]), jobs')).
Proof.
  intros Hc. unfold add_task. rewrite Hc. split.
  - intros e He. rewrite He. reflexivity.
  - intros made e jobs' Hmade Hadd He. rewrite Hmade.
    unfold registered in Hadd. rewrite Hadd. simpl. rewrite He. reflexivity.
Qed.

Lemma add_task_failures_witness :
  add_task {| new_CronTrigger := fun _ => Raise (ValueError ["hour"]);
              new_IntervalTrigger := new_IntervalTrigger documented_library;
              new_DateTrigger := new_DateTrigger documented_library;
              add_job := add_job documented_library;
              remove_job := remove_job documented_library |}
    "example_cron_task" "cron" "daily" [("hour", "25")] ∅
  = (raise (ValueError ["hour"]), ∅).
Proof.
  eapply (proj1 (add_task_failures _ _ "cron" _ _ _ _ eq_refl)). reflexivity.
Defined.







End SchedulerExtras.

(** ** More about utils/db_manager.py *)
Module DbExtras.
Import Py PyFacts Config Events Db DbFacts DbSetup.

#[local] Arguments isinstance : simpl never.










Lemma build_dsn_returns (db_type db_dsn : string) :
  exists full_dsn t, _build_dsn db_type db_dsn = (Return full_dsn, t)
    /\ (db_type = "sqlite" -> t = [])
    /\ (db_type <> "postgresql" -> db_type <> "mysql" ->
        full_dsn = "sqlite+aiosqlite:///" +:+ db_dsn).
Proof.
  unfold _build_dsn.
  destruct (String.eqb_spec db_type "sqlite") as [->|H1]; [eauto 6|].
  destruct (String.eqb_spec db_type "postgresql") as [->|H2].
  { eexists _, _. split; [reflexivity|]. split; [discriminate|]. congruence. }
  destruct (String.eqb_spec db_type "mysql") as [->|H3].
  { eexists _, _. split; [reflexivity|]. split; [discriminate|]. congruence. }
  eexists _, _. split; [reflexivity|]. split; [congruence|]. reflexivity.
Qed.

End DbExtras.

(** ** More about the construction of the database manager *)
Module DbSetupExtras.
Import Py PyFacts Config Events Db DbExtras DbSetup.

#[local] Arguments isinstance : simpl never.


Lemma build_dsn_run (db_type db_dsn : string) :
  exists full_dsn t, build_dsn db_type db_dsn = (Return full_dsn, t)
    /\ List.filter made_directory t = []
    /\ List.filter is_critical t = []
    /\ (db_type <> "postgresql" -> db_type <> "mysql" ->
        full_dsn = "sqlite+aiosqlite:///" +:+ db_dsn).
Proof.
  unfold build_dsn, _build_dsn.
  destruct (String.eqb_spec db_type "sqlite") as [->|H1]; [eexists _, _; eauto|].
  destruct (String.eqb_spec db_type "postgresql") as [->|H2].
  { eexists _, _. repeat split. congruence. }
  destruct (String.eqb_spec db_type "mysql") as [->|H3].
  { eexists _, _. repeat split. congruence. }
  eexists _, _. repeat split.
Qed.

(** X19. The constructor makes the directory of the database file only when
    the configured type is exactly [sqlite]. With any other type no
    directory is made, although every type other than [postgresql] and
    [mysql] is given the SQLite DSN of the configured path. *)
Theorem directory_only_for_sqlite (os : platform) (cfg : ConfigParser) :
  get cfg "Database" "Type" "sqlite" <> "sqlite" ->
  List.filter made_directory (trace (__init__ os cfg)) = []
  /\ (get cfg "Database" "Type" "sqlite" <> "postgresql" ->
      get cfg "Database" "Type" "sqlite" <> "mysql" ->
      forall self, result (__init__ os cfg) = Return self ->
        dsn self = "sqlite+aiosqlite:///" +:+ get cfg "Database" "DSN" "db/bot.db").
Proof.
  intros Htype. unfold __init__.
  destruct (build_dsn_run (get cfg "Database" "Type" "sqlite")
              (get cfg "Database" "DSN" "db/bot.db")) as (full_dsn & t & Hrun & Hdir & _ & Hdsn).
  rewrite Hrun.
  destruct (String.eqb_spec (get cfg "Database" "Type" "sqlite") "sqlite") as [Heq|_];
    [contradiction|].
  unfold bind, lift. simpl.
  destruct (create_async_engine os full_dsn) as [[]|e]; simpl.
  - rewrite List.filter_app, Hdir. split; [reflexivity|].
    intros H1 H2 self H. inversion H; subst. simpl. auto.
  - destruct (isinstance e [Exception]); simpl;
      rewrite ?List.filter_app, ?Hdir, ?app_nil_r; (split; [auto|]);
      intros H1 H2 self H; discriminate.
Qed.

Lemma directory_only_for_sqlite_witness :
  List.filter made_directory
    (trace (__init__ {| exists_ := fun _ => false; makedirs := fun _ => Return tt;
                        create_async_engine := fun _ => Return tt;
                        engine_begin := Return tt; create_all := Return tt;
                        engine_commit := Return tt |}
              {| defaults := ∅;
                 sections := {[ "Database" := {[ "type" := "SQLite";
                                                  "dsn" := "db/bot.db" ]} ]} |}))
  = [].
Proof.
  refine (proj1 (directory_only_for_sqlite _ _ _)). discriminate.
Defined.



(** X21. [init_db_schema] treats its two failures differently: an exception
    on opening the connection leaves it at once, with nothing logged; an
    [Exception] while the tables are created is logged at error level with
    the stack trace and dropped, the transaction is then committed, and the
    method returns as the commit does. *)
Theorem schema_failures (os : platform) :
  (forall e, engine_begin os = Raise e -> init_db_schema os = raise e)
  /\ (forall e, engine_begin os = Return tt -> create_all os = Raise e ->
        isinstance e [Exception] = true ->
        init_db_schema os = (engine_commit os, [SetupLog ERROR (SchemaFailed e) true])).
Proof.
  unfold init_db_schema. split.
  - intros e H. rewrite H. reflexivity.
  - intros e Hb Hc He. rewrite Hb, Hc. simpl. rewrite He. simpl.
    destruct (engine_commit os); reflexivity.
Qed.

Lemma schema_failures_witness :
  init_db_schema {| exists_ := fun _ => true; makedirs := fun _ => Return tt;
                    create_async_engine := fun _ => Return tt;
                    engine_begin := Return tt;
                    create_all := Raise Scheduler.OperationalError;
                    engine_commit := Return tt |}
  = (Return tt, [SetupLog ERROR (SchemaFailed Scheduler.OperationalError) true]).
Proof.
  exact (proj2 (schema_failures
                  {| exists_ := fun _ => true; makedirs := fun _ => Return tt;
                     create_async_engine := fun _ => Return tt;
                     engine_begin := Return tt;
                     create_all := Raise Scheduler.OperationalError;
                     engine_commit := Return tt |})
           Scheduler.OperationalError eq_refl eq_refl eq_refl).
Defined.

End DbSetupExtras.

(** ** About utils/config_manager.py *)
Module ConfigManagerFacts.
Import Py Config ConfigManager.



Lemma guild_section_name (guild_id : Z) :
  "Guild_" +:+ pretty guild_id <> default_section
  /\ "Guild_" +:+ pretty guild_id <> "BotSettings".
Proof. split; simpl; discriminate. Qed.

(** X23. The order in which [get_guild_setting] looks a key up. With a
    section for the guild: the option of that section, else the option of
    [DEFAULT], else the option of [BotSettings]. With no section for the
    guild: the option of [BotSettings], else the option of [DEFAULT] when
    [BotSettings] exists. The key is compared in lower case. *)
Theorem guild_setting_order (self : ConfigManager) (guild_id : Z) (key : string) :
  get_guild_setting self guild_id key
  = match sections (config self) !! ("Guild_" +:+ pretty guild_id) with
    | Some guild =>
        match guild !! lower key, defaults (config self) !! lower key with
        | Some value, _ => Some value
        | None, Some value => Some value
        | None, None => sections (config self) !! "BotSettings" ≫= (.!! lower key)
        end
    | None =>
        match sections (config self) !! "BotSettings" with
        | Some bot =>
            match bot !! lower key with
            | Some value => Some value
            | None => defaults (config self) !! lower key
            end
        | None => None
        end
    end.
Proof.
  unfold get_guild_setting, section_has, contains, find.
  destruct (guild_section_name guild_id) as [Hd _].
  rewrite (bool_decide_eq_false_2 _ Hd).
  change (bool_decide ("BotSettings" = default_section)) with false.
  destruct (sections (config self) !! ("Guild_" +:+ pretty guild_id)) as [guild|]; simpl.
  - destruct (guild !! lower key) as [v|]; simpl; [reflexivity|].
    destruct (defaults (config self) !! lower key) as [v|] eqn:Hdef; simpl; [reflexivity|].
    destruct (sections (config self) !! "BotSettings") as [bot|]; simpl; [|reflexivity].
    destruct (bot !! lower key); simpl; reflexivity.
  - destruct (sections (config self) !! "BotSettings") as [bot|]; simpl; [|reflexivity].
    destruct (bot !! lower key); simpl; [reflexivity|].
    destruct (defaults (config self) !! lower key); reflexivity.
Qed.

(** X24. The setting of one guild does not depend on the section of another:
    replacing or removing the section of guild [other] leaves every setting
    of a different guild as it was. *)
Theorem guild_sections_are_separate (self : ConfigManager) (guild_id other : Z)
    (key : string) (body : option (gmap string string)) :
  guild_id <> other ->
  get_guild_setting (with_guild_section self other body) guild_id key
  = get_guild_setting self guild_id key.
Proof.
  intros Hne.
  assert (Hname : "Guild_" +:+ pretty other <> "Guild_" +:+ pretty guild_id).
  { intros H. simpl in H. inversion H as [H']. apply Hne. symmetry.
    exact (pretty_Z_inj _ _ H'). }
  destruct (guild_section_name other) as [_ Hbot].
  unfold get_guild_setting, section_has, contains, find, with_guild_section. simpl.
  rewrite !(lookup_partial_alter_ne _ _ _ _ Hname).
  rewrite !(lookup_partial_alter_ne _ _ _ _ Hbot). reflexivity.
Qed.

Lemma guild_sections_are_separate_witness :
  get_guild_setting (with_guild_section sample_manager 7 (Some {[ "lang" := "en" ]})) 42 "Lang"
  = get_guild_setting sample_manager 42 "Lang".
Proof. apply guild_sections_are_separate. discriminate. Defined.

End ConfigManagerFacts.

(** ** About utils/bot_logger.py *)
Module LoggerFacts.
Import Py Config Events Logger.

#[local] Arguments isinstance : simpl never.
#[local] Arguments level_of : simpl never.

Lemma cleared_handlers (logger : Logger) :
  (if hasHandlers logger then [] else handlers logger) = [].
Proof. unfold hasHandlers. destruct (handlers logger), (ancestors_have_handlers logger); reflexivity. Qed.




Lemma chars_lower (s : string) :
  list_ascii_of_string (lower s) = map lower_char (list_ascii_of_string s).
Proof. induction s as [|c s IH]; simpl; [reflexivity|]. rewrite IH. reflexivity. Qed.

Lemma upper_lower_char (c : ascii) : upper_char (lower_char c) = upper_char c.
Proof. destruct c as [[] [] [] [] [] [] [] []]; reflexivity. Qed.

Lemma upper_lower (s : string) : upper (lower s) = upper s.
Proof.
  unfold upper. rewrite chars_lower.
  induction (list_ascii_of_string s) as [|c l IH]; simpl; [reflexivity|].
  rewrite upper_lower_char, IH. reflexivity.
Qed.

(** X26. The name of the log level is read without regard to case: two
    names that are equal in lower case give the same level. *)
Theorem level_ignores_case (name name' : string) :
  lower name = lower name' -> level_of name = level_of name'.
Proof.
  intros H. unfold level_of.
  rewrite <- (upper_lower name), <- (upper_lower name'), H. reflexivity.
Qed.

Lemma level_ignores_case_witness : level_of "Warning" = level_of "wARNING".
Proof. apply level_ignores_case. reflexivity. Defined.

(** X27. When [config.getint] fails on [LogMaxBytes] or [LogBackupCount]:
    an exception that is not a [configparser.Error] leaves [setup_logging]
    at once, before any handler is touched; a [configparser.Error] makes it
    fall back to the defaults for all four settings, so that the logger ends
    at level INFO and the file handler, if any, is the default one, whatever
    [LogLevel] and [LogFile] say. *)
Theorem setup_config_errors (os : platform) (cfg : ConfigParser) (logger : Logger) (e : exn) :
  getint os cfg "Logging" "LogMaxBytes" 10485760 = Raise e
  \/ (exists n, getint os cfg "Logging" "LogMaxBytes" 10485760 = Return n
                /\ getint os cfg "Logging" "LogBackupCount" 5 = Raise e) ->
  (isinstance e [Error] = false -> setup_logging os cfg logger = raise e)
  /\ (isinstance e [Error] = true ->
      forall l, result (setup_logging os cfg logger) = Return l ->
        logger_level l = INFO
        /\ forall path max_bytes backup_count lvl,
             In (RotatingFileHandler path max_bytes backup_count lvl) (handlers l) ->
             path = "logs/bot.log" /\ max_bytes = 10485760 /\ backup_count = 5).
Proof.
  intros Hfail. unfold setup_logging. rewrite cleared_handlers.
  assert (Hsettings :
            try_except
              (let! max_bytes := lift (getint os cfg "Logging" "LogMaxBytes" 10485760) in
               let! backup_count := lift (getint os cfg "Logging" "LogBackupCount" 5) in
               @ret logger_event _
                 (get cfg "Logging" "LogLevel" "INFO", get cfg "Logging" "LogFile" "logs/bot.log",
                  max_bytes, backup_count))
              [Error]
              (fun e0 => do! emit (ConfigReadErrorPrinted e0) in
                         ret ("INFO", "logs/bot.log", 10485760, 5))
            = if isinstance e [Error]
              then (Return ("INFO", "logs/bot.log", 10485760, 5), [ConfigReadErrorPrinted e])
              else (Raise e, [])).
  { destruct Hfail as [H|(n & Hn & H)]; [|rewrite Hn]; rewrite H; simpl;
      destruct (isinstance e [Error]); reflexivity. }
  cbv zeta. rewrite Hsettings. split.
  - intros He. rewrite He. reflexivity.
  - intros He. rewrite He. simpl.
    destruct (open_log_file os "logs/bot.log") as [[]|e1]; simpl;
      [|destruct (isinstance e1 [OSError]); simpl]; intros l H; inversion H; subst; simpl;
      (split; [reflexivity|]); intros path mb bc lvl Hin;
      repeat (destruct Hin as [Hin|Hin]; [inversion Hin; subst; auto|]);
      try discriminate; contradiction.
Qed.

Lemma setup_config_errors_witness :
  setup_logging {| getint := fun _ _ _ _ => Raise (ValueError ["ten"]);
                   open_log_file := fun _ => Return tt |}
    Permission.test_config
    {| logger_level := INFO; handlers := []; ancestors_have_handlers := false |}
  = raise (ValueError ["ten"]).
Proof.
  refine (proj1 (setup_config_errors _ _ _ (ValueError ["ten"]) _) _).
  - left. reflexivity.
  - reflexivity.
Defined.

End LoggerFacts.
